(** * Hedging platform backend: inventory ledger and contract lifecycle

    A shallow embedding of the contract endpoints of [src/main.py]
    (the FastAPI handlers [list_product], [create_contract_by_farmer],
    [create_contract_by_trader], [trader_accept_contract],
    [farmer_accept_contract], [reject_contract], [cancel_contract] and
    [complete_contract]) over the in-memory collections [users_db],
    [products_db], [contracts_db] and [sessions].

    Modelling decisions.
    - The collections are Python dicts keyed by string ids: [gmap string _].
      A handler holds a reference to the dict stored in the collection, so
      a field assignment is an update of the collection at that key.
    - Handlers run in a state monad with exceptions.  A [raise] does not
      roll anything back: whatever was assigned before it stays assigned.
    - Quantities and prices are Python numbers.  The handlers only add,
      subtract, multiply and compare them, so the embedding is generic in
      a number structure [PyNum]; the instance [float_PyNum] is the
      binary64 arithmetic of Python's [float] (the type pydantic gives
      [qty] and [price_per_unit]), the instance [Z_PyNum] is exact integer
      arithmetic.
    - [generate_id()] (a random UUID) and [datetime.now().isoformat()] are
      inputs of the handlers: the id drawn and the successive clock
      readings.
    - Only the dict keys the contract endpoints read or write are kept in
      the records.

    The last part embeds the market endpoints [get_current_prices],
    [get_price_history] and [get_forecasts] over the lists
    [market_prices_db] and [forecasts_db], which are arguments of the
    handlers: no handler writes to them. *)

From stdpp Require Import gmap strings sorting.
From Stdlib Require Import ZArith PrimFloat.
From Stdlib Require OrderedTypeEx.

#[local] Set Warnings "-inexact-float".
#[local] Set Warnings "-clear-no-such-hyp".
#[local] Open Scope Z_scope.

(** ** Enums *)

Module UserType.
Inductive t := FARMER | TRADER.
#[global] Instance eq_dec : EqDecision t.
Proof. solve_decision. Defined.
End UserType.

Module ProductType.
Inductive t := SOYBEAN | SUNFLOWER | GROUNDNUT | MUSTARD | SESAME.
End ProductType.

Module UnitType.
Inductive t := KG | TONNE.
#[global] Instance eq_dec : EqDecision t.
Proof. solve_decision. Defined.
End UnitType.

Module ContractStatus.
Inductive t := PENDING | ACTIVE | REJECTED | CANCELLED | COMPLETED.
#[global] Instance eq_dec : EqDecision t.
Proof. solve_decision. Defined.
End ContractStatus.

Module CreatedBy.
Inductive t := FARMER | TRADER.
#[global] Instance eq_dec : EqDecision t.
Proof. solve_decision. Defined.
(** [.value] of the enum member, the string stored in the dicts. *)
Definition value (c : t) : string :=
  match c with FARMER => "farmer" | TRADER => "trader" end.
End CreatedBy.

(** ** Numbers *)

(** The operations the handlers apply to quantities: [0], [+=], [-=] and
    [-], [*] and the comparison [>]. *)
Class PyNum (N : Type) := {
  num_zero : N;
  num_add : N → N → N;
  num_sub : N → N → N;
  num_mul : N → N → N;
  num_gt : N → N → bool
}.


#[global] Instance Z_PyNum : PyNum Z := {|
  num_zero := 0;
  num_add := Z.add;
  num_sub := Z.sub;
  num_mul := Z.mul;
  num_gt := Z.gtb
|}.


(** Python's [float]: IEEE 754 binary64, round to nearest even. *)
#[global] Instance float_PyNum : PyNum float := {|
  num_zero := 0%float;
  num_add := PrimFloat.add;
  num_sub := PrimFloat.sub;
  num_mul := PrimFloat.mul;
  num_gt := λ a b, PrimFloat.ltb b a
|}.

Definition timestamp := string.

(** ** Exceptions *)

(** The [detail] of an [HTTPException]: a literal message, or the
    f-string of the quantity checks, kept as its literal prefix and the
    two values it formats. *)
Inductive detail (N : Type) :=
  | Msg (s : string)
  | MsgQty (s : string) (available : N) (unit : UnitType.t).
Arguments Msg {N} s.
Arguments MsgQty {N} s available unit.

(** What a request can end in besides its response: an [HTTPException]
    raised by the handler, a [KeyError] of a subscript [d[k]], or the 422
    of a request body that fails the pydantic model. *)
Inductive exn (N : Type) :=
  | HTTPException (status_code : Z) (d : detail N)
  | KeyError (key : string)
  | RequestValidationError.
Arguments HTTPException {N} status_code d.
Arguments KeyError {N} key.
Arguments RequestValidationError {N}.

Inductive outcome (N A : Type) :=
  | Ok (a : A)
  | Raise (e : exn N).
Arguments Ok {N A} a.
Arguments Raise {N A} e.

(** ** Documents *)

(** A user document; of its keys the contract endpoints read ["_id"] and
    ["type"]. *)
Record user := mk_user {
  u_id : string;
  u_email : string;
  u_type : UserType.t;
  u_name : string
}.

Section Model.
Context {N : Type} `{PyNum N}.

(** A product document (a listing), with the keys of [list_product]. *)
Record product := mk_product {
  p_id : string;
  p_farmer_id : string;
  p_type : ProductType.t;
  total_qty : N;
  available_qty : N;
  reserved_qty : N;
  committed_qty : N;
  p_unit : UnitType.t;
  is_active : bool;
  p_created_at : timestamp;
  p_updated_at : timestamp
}.

(** A contract document.  The keys ["rejected_by"], ["rejection_reason"]
    and ["completed_by"] are absent from a new contract and appear when
    [reject_contract] and [complete_contract] assign them: [None] stands
    for an absent key as well as for Python's [None]. *)
Record contract := mk_contract {
  c_id : string;
  c_farmer_id : string;
  c_trader_id : option string;
  c_product_id : string;
  c_product_type : ProductType.t;
  price_per_unit : N;
  qty : N;
  c_unit : UnitType.t;
  total_value : N;
  status : ContractStatus.t;
  created_by : CreatedBy.t;
  c_created_at : timestamp;
  accepted_at : option timestamp;
  accepted_by : option string;
  completed_at : option timestamp;
  rejected_at : option timestamp;
  cancelled_at : option timestamp;
  expected_delivery_date : option string;
  notes : option string;
  rejected_by : option string;
  rejection_reason : option string;
  completed_by : option string
}.

(** *** Field assignments [d["key"] = v] *)

Definition set_total_qty (v : N) (p : product) : product :=
  mk_product (p_id p) (p_farmer_id p) (p_type p) v (available_qty p)
    (reserved_qty p) (committed_qty p) (p_unit p) (is_active p)
    (p_created_at p) (p_updated_at p).

Definition set_available_qty (v : N) (p : product) : product :=
  mk_product (p_id p) (p_farmer_id p) (p_type p) (total_qty p) v
    (reserved_qty p) (committed_qty p) (p_unit p) (is_active p)
    (p_created_at p) (p_updated_at p).

Definition set_reserved_qty (v : N) (p : product) : product :=
  mk_product (p_id p) (p_farmer_id p) (p_type p) (total_qty p)
    (available_qty p) v (committed_qty p) (p_unit p) (is_active p)
    (p_created_at p) (p_updated_at p).

Definition set_committed_qty (v : N) (p : product) : product :=
  mk_product (p_id p) (p_farmer_id p) (p_type p) (total_qty p)
    (available_qty p) (reserved_qty p) v (p_unit p) (is_active p)
    (p_created_at p) (p_updated_at p).

Definition set_p_updated_at (v : timestamp) (p : product) : product :=
  mk_product (p_id p) (p_farmer_id p) (p_type p) (total_qty p)
    (available_qty p) (reserved_qty p) (committed_qty p) (p_unit p)
    (is_active p) (p_created_at p) v.

Definition set_c_trader_id (v : option string) (c : contract) : contract :=
  mk_contract (c_id c) (c_farmer_id c) v (c_product_id c)
    (c_product_type c) (price_per_unit c) (qty c) (c_unit c) (total_value c)
    (status c) (created_by c) (c_created_at c) (accepted_at c)
    (accepted_by c) (completed_at c) (rejected_at c) (cancelled_at c)
    (expected_delivery_date c) (notes c) (rejected_by c)
    (rejection_reason c) (completed_by c).

Definition set_status (v : ContractStatus.t) (c : contract) : contract :=
  mk_contract (c_id c) (c_farmer_id c) (c_trader_id c) (c_product_id c)
    (c_product_type c) (price_per_unit c) (qty c) (c_unit c) (total_value c)
    v (created_by c) (c_created_at c) (accepted_at c)
    (accepted_by c) (completed_at c) (rejected_at c) (cancelled_at c)
    (expected_delivery_date c) (notes c) (rejected_by c)
    (rejection_reason c) (completed_by c).

Definition set_accepted_at (v : option timestamp) (c : contract) : contract :=
  mk_contract (c_id c) (c_farmer_id c) (c_trader_id c) (c_product_id c)
    (c_product_type c) (price_per_unit c) (qty c) (c_unit c) (total_value c)
    (status c) (created_by c) (c_created_at c) v
    (accepted_by c) (completed_at c) (rejected_at c) (cancelled_at c)
    (expected_delivery_date c) (notes c) (rejected_by c)
    (rejection_reason c) (completed_by c).

Definition set_accepted_by (v : option string) (c : contract) : contract :=
  mk_contract (c_id c) (c_farmer_id c) (c_trader_id c) (c_product_id c)
    (c_product_type c) (price_per_unit c) (qty c) (c_unit c) (total_value c)
    (status c) (created_by c) (c_created_at c) (accepted_at c)
    v (completed_at c) (rejected_at c) (cancelled_at c)
    (expected_delivery_date c) (notes c) (rejected_by c)
    (rejection_reason c) (completed_by c).

Definition set_completed_at (v : option timestamp) (c : contract) : contract :=
  mk_contract (c_id c) (c_farmer_id c) (c_trader_id c) (c_product_id c)
    (c_product_type c) (price_per_unit c) (qty c) (c_unit c) (total_value c)
    (status c) (created_by c) (c_created_at c) (accepted_at c)
    (accepted_by c) v (rejected_at c) (cancelled_at c)
    (expected_delivery_date c) (notes c) (rejected_by c)
    (rejection_reason c) (completed_by c).

Definition set_rejected_at (v : option timestamp) (c : contract) : contract :=
  mk_contract (c_id c) (c_farmer_id c) (c_trader_id c) (c_product_id c)
    (c_product_type c) (price_per_unit c) (qty c) (c_unit c) (total_value c)
    (status c) (created_by c) (c_created_at c) (accepted_at c)
    (accepted_by c) (completed_at c) v (cancelled_at c)
    (expected_delivery_date c) (notes c) (rejected_by c)
    (rejection_reason c) (completed_by c).

Definition set_cancelled_at (v : option timestamp) (c : contract) : contract :=
  mk_contract (c_id c) (c_farmer_id c) (c_trader_id c) (c_product_id c)
    (c_product_type c) (price_per_unit c) (qty c) (c_unit c) (total_value c)
    (status c) (created_by c) (c_created_at c) (accepted_at c)
    (accepted_by c) (completed_at c) (rejected_at c) v
    (expected_delivery_date c) (notes c) (rejected_by c)
    (rejection_reason c) (completed_by c).

Definition set_rejected_by (v : option string) (c : contract) : contract :=
  mk_contract (c_id c) (c_farmer_id c) (c_trader_id c) (c_product_id c)
    (c_product_type c) (price_per_unit c) (qty c) (c_unit c) (total_value c)
    (status c) (created_by c) (c_created_at c) (accepted_at c)
    (accepted_by c) (completed_at c) (rejected_at c) (cancelled_at c)
    (expected_delivery_date c) (notes c) v
    (rejection_reason c) (completed_by c).

Definition set_rejection_reason (v : option string) (c : contract) : contract :=
  mk_contract (c_id c) (c_farmer_id c) (c_trader_id c) (c_product_id c)
    (c_product_type c) (price_per_unit c) (qty c) (c_unit c) (total_value c)
    (status c) (created_by c) (c_created_at c) (accepted_at c)
    (accepted_by c) (completed_at c) (rejected_at c) (cancelled_at c)
    (expected_delivery_date c) (notes c) (rejected_by c)
    v (completed_by c).

Definition set_completed_by (v : option string) (c : contract) : contract :=
  mk_contract (c_id c) (c_farmer_id c) (c_trader_id c) (c_product_id c)
    (c_product_type c) (price_per_unit c) (qty c) (c_unit c) (total_value c)
    (status c) (created_by c) (c_created_at c) (accepted_at c)
    (accepted_by c) (completed_at c) (rejected_at c) (cancelled_at c)
    (expected_delivery_date c) (notes c) (rejected_by c)
    (rejection_reason c) v.

(** ** The in-memory database *)

Record db := mk_db {
  users_db : gmap string user;
  products_db : gmap string product;
  contracts_db : gmap string contract;
  sessions : gmap string string
}.

Definition set_products_db (m : gmap string product) (s : db) : db :=
  mk_db (users_db s) m (contracts_db s) (sessions s).

Definition set_contracts_db (m : gmap string contract) (s : db) : db :=
  mk_db (users_db s) (products_db s) m (sessions s).

(** ** The handler monad *)

Definition M (A : Type) : Type := db → outcome N A * db.

#[global] Instance M_ret : MRet M := λ A a s, (Ok a, s).

#[global] Instance M_bind : MBind M := λ A B f m s,
  match m s with
  | (Ok a, s') => f a s'
  | (Raise e, s') => (Raise e, s')
  end.

Definition raise {A : Type} (e : exn N) : M A := λ s, (Raise e, s).

Definition gets {A : Type} (f : db → A) : M A := λ s, (Ok (f s), s).

Definition modify (f : db → db) : M unit := λ s, (Ok (), f s).

(** [if b: raise e] *)
Definition raise_if (b : bool) (e : exn N) : M unit :=
  if b then raise e else mret ().

(** [x = d.get(k)] followed by [if not x: raise e]; a stored document is
    a non-empty dict, hence truthy. *)
Definition get_or_raise {A : Type} (o : option A) (e : exn N) : M A :=
  match o with Some a => mret a | None => raise e end.

(** [products_db[key]] *)
Definition products_db_subscript (key : string) : M product :=
  o ← gets (λ s, products_db s !! key);
  get_or_raise o (KeyError key).

(** An assignment to a key of the contract dict stored under [key]: the
    handler's variable and the collection hold the same dict, so the new
    value of the variable is also the collection's. *)
Definition assign_contract (key : string) (c : contract) : M contract :=
  modify (λ s, set_contracts_db (<[key := c]> (contracts_db s)) s);;
  mret c.

Definition assign_product (key : string) (p : product) : M product :=
  modify (λ s, set_products_db (<[key := p]> (products_db s)) s);;
  mret p.

(** ** Helper functions *)

Definition get_current_user_email (email : string) : M user :=
  o ← gets (λ s, sessions s !! email);
  user_id ← get_or_raise o (HTTPException 401 (Msg "Not authenticated"));
  o ← gets (λ s, users_db s !! user_id);
  get_or_raise o (HTTPException 401 (Msg "User not found")).

(** ** Request models *)

Record ListProductRequest := mk_ListProductRequest {
  lp_type : ProductType.t;
  lp_qty : N;
  lp_unit : UnitType.t
}.

Record CreateContractByFarmerRequest := mk_CreateContractByFarmerRequest {
  cf_product_id : string;
  cf_price_per_unit : N;
  cf_qty : N;
  cf_unit : UnitType.t;
  cf_expected_delivery_date : option string;
  cf_notes : option string
}.

Record CreateContractByTraderRequest := mk_CreateContractByTraderRequest {
  ct_farmer_id : string;
  ct_product_id : string;
  ct_price_per_unit : N;
  ct_qty : N;
  ct_unit : UnitType.t;
  ct_expected_delivery_date : option string;
  ct_notes : option string
}.

Record AcceptContractRequest := mk_AcceptContractRequest {
  ac_contract_id : string
}.

Record RejectContractRequest := mk_RejectContractRequest {
  rj_contract_id : string;
  rj_rejection_reason : option string
}.

Record CancelContractRequest := mk_CancelContractRequest {
  cn_contract_id : string
}.

Record CompleteContractRequest := mk_CompleteContractRequest {
  cp_contract_id : string;
  cp_completed_by : CreatedBy.t
}.

(** ** Product endpoint *)

(** [list_product]; [product_id] is the id [generate_id()] returns, [now]
    and [now'] the two clock readings. *)
Definition list_product (request : ListProductRequest) (email : string)
    (product_id : string) (now now' : timestamp) : M product :=
  user ← get_current_user_email email;
  raise_if (bool_decide (u_type user ≠ UserType.FARMER))
    (HTTPException 403 (Msg "Only farmers can list products"));;
  let product :=
    mk_product product_id (u_id user) (lp_type request) (lp_qty request)
      (lp_qty request) num_zero num_zero (lp_unit request) true now now' in
  assign_product product_id product.

(** ** Contract endpoints *)

(** The dict literal [contract = {...}] of [create_contract_by_farmer]. *)
Definition farmer_contract (request : CreateContractByFarmerRequest)
    (user : user) (product : product) (contract_id : string)
    (now : timestamp) : contract :=
  mk_contract contract_id (u_id user) None (cf_product_id request)
    (p_type product) (cf_price_per_unit request) (cf_qty request)
    (cf_unit request)
    (num_mul (cf_price_per_unit request) (cf_qty request))
    ContractStatus.PENDING CreatedBy.FARMER now None None None None None
    (cf_expected_delivery_date request) (cf_notes request)
    None None None.

(** The dict literal [contract = {...}] of [create_contract_by_trader]. *)
Definition trader_contract (request : CreateContractByTraderRequest)
    (user : user) (product : product) (contract_id : string)
    (now : timestamp) : contract :=
  mk_contract contract_id (ct_farmer_id request) (Some (u_id user))
    (ct_product_id request) (p_type product) (ct_price_per_unit request)
    (ct_qty request) (ct_unit request)
    (num_mul (ct_price_per_unit request) (ct_qty request))
    ContractStatus.PENDING CreatedBy.TRADER now None None None None None
    (ct_expected_delivery_date request) (ct_notes request)
    None None None.

Definition create_contract_by_farmer (request : CreateContractByFarmerRequest)
    (email : string) (contract_id : string) (now now' : timestamp)
    : M contract :=
  user ← get_current_user_email email;
  raise_if (bool_decide (u_type user ≠ UserType.FARMER))
    (HTTPException 403 (Msg "Only farmers can create farmer contracts"));;
  o ← gets (λ s, products_db s !! cf_product_id request);
  product ← get_or_raise o (HTTPException 404 (Msg "Product not found"));
  raise_if (bool_decide (p_farmer_id product ≠ u_id user))
    (HTTPException 403 (Msg "This product doesn't belong to you"));;
  let available_for_contract :=
    num_sub (available_qty product) (reserved_qty product) in
  raise_if (num_gt (cf_qty request) available_for_contract)
    (HTTPException 400
       (MsgQty "Insufficient available quantity. Available: "
          available_for_contract (p_unit product)));;
  let contract := farmer_contract request user product contract_id now in
  assign_contract contract_id contract;;
  product ← assign_product (cf_product_id request)
    (set_reserved_qty (num_add (reserved_qty product) (cf_qty request))
       product);
  assign_product (cf_product_id request) (set_p_updated_at now' product);;
  mret contract.

Definition create_contract_by_trader (request : CreateContractByTraderRequest)
    (email : string) (contract_id : string) (now : timestamp) : M contract :=
  user ← get_current_user_email email;
  raise_if (bool_decide (u_type user ≠ UserType.TRADER))
    (HTTPException 403 (Msg "Only traders can create trader contracts"));;
  o ← gets (λ s, products_db s !! ct_product_id request);
  product ← get_or_raise o (HTTPException 404 (Msg "Product not found"));
  raise_if (bool_decide (ct_farmer_id request ≠ p_farmer_id product))
    (HTTPException 400 (Msg "Product doesn't belong to specified farmer"));;
  raise_if (num_gt (ct_qty request) (available_qty product))
    (HTTPException 400
       (MsgQty "Quantity exceeds available quantity. Available: "
          (available_qty product) (p_unit product)));;
  let contract := trader_contract request user product contract_id now in
  assign_contract contract_id contract.

Definition trader_accept_contract (request : AcceptContractRequest)
    (email : string) (now now' : timestamp) : M contract :=
  user ← get_current_user_email email;
  raise_if (bool_decide (u_type user ≠ UserType.TRADER))
    (HTTPException 403 (Msg "Only traders can accept farmer contracts"));;
  o ← gets (λ s, contracts_db s !! ac_contract_id request);
  contract ← get_or_raise o (HTTPException 404 (Msg "Contract not found"));
  raise_if (bool_decide (created_by contract ≠ CreatedBy.FARMER))
    (HTTPException 400 (Msg "This is not a farmer-created contract"));;
  raise_if (bool_decide (status contract ≠ ContractStatus.PENDING))
    (HTTPException 400 (Msg "Contract is not pending"));;
  contract ← assign_contract (ac_contract_id request)
    (set_c_trader_id (Some (u_id user)) contract);
  contract ← assign_contract (ac_contract_id request)
    (set_status ContractStatus.ACTIVE contract);
  contract ← assign_contract (ac_contract_id request)
    (set_accepted_at (Some now) contract);
  contract ← assign_contract (ac_contract_id request)
    (set_accepted_by (Some (u_id user)) contract);
  product ← products_db_subscript (c_product_id contract);
  product ← assign_product (c_product_id contract)
    (set_reserved_qty (num_sub (reserved_qty product) (qty contract))
       product);
  product ← assign_product (c_product_id contract)
    (set_committed_qty (num_add (committed_qty product) (qty contract))
       product);
  product ← assign_product (c_product_id contract)
    (set_available_qty (num_sub (available_qty product) (qty contract))
       product);
  assign_product (c_product_id contract) (set_p_updated_at now' product);;
  mret contract.

Definition farmer_accept_contract (request : AcceptContractRequest)
    (email : string) (now now' : timestamp) : M contract :=
  user ← get_current_user_email email;
  raise_if (bool_decide (u_type user ≠ UserType.FARMER))
    (HTTPException 403 (Msg "Only farmers can accept trader contracts"));;
  o ← gets (λ s, contracts_db s !! ac_contract_id request);
  contract ← get_or_raise o (HTTPException 404 (Msg "Contract not found"));
  raise_if (bool_decide (created_by contract ≠ CreatedBy.TRADER))
    (HTTPException 400 (Msg "This is not a trader-created contract"));;
  raise_if (bool_decide (status contract ≠ ContractStatus.PENDING))
    (HTTPException 400 (Msg "Contract is not pending"));;
  raise_if (bool_decide (c_farmer_id contract ≠ u_id user))
    (HTTPException 403 (Msg "This contract is not for you"));;
  product ← products_db_subscript (c_product_id contract);
  raise_if (num_gt (qty contract) (available_qty product))
    (HTTPException 400
       (MsgQty "Insufficient available quantity. Available: "
          (available_qty product) (p_unit product)));;
  contract ← assign_contract (ac_contract_id request)
    (set_status ContractStatus.ACTIVE contract);
  contract ← assign_contract (ac_contract_id request)
    (set_accepted_at (Some now) contract);
  contract ← assign_contract (ac_contract_id request)
    (set_accepted_by (Some (u_id user)) contract);
  product ← assign_product (c_product_id contract)
    (set_available_qty (num_sub (available_qty product) (qty contract))
       product);
  product ← assign_product (c_product_id contract)
    (set_committed_qty (num_add (committed_qty product) (qty contract))
       product);
  assign_product (c_product_id contract) (set_p_updated_at now' product);;
  mret contract.

(** The [if contract["created_by"] == "farmer":] block shared by
    [reject_contract] and [cancel_contract]: return the reserved
    quantity. *)
Definition return_reserved_quantity (contract : contract)
    (now' : timestamp) : M unit :=
  if bool_decide (created_by contract = CreatedBy.FARMER) then
    product ← products_db_subscript (c_product_id contract);
    product ← assign_product (c_product_id contract)
      (set_reserved_qty (num_sub (reserved_qty product) (qty contract))
         product);
    assign_product (c_product_id contract) (set_p_updated_at now' product);;
    mret ()
  else mret ().

Definition reject_contract (request : RejectContractRequest)
    (email : string) (now now' : timestamp) : M contract :=
  user ← get_current_user_email email;
  o ← gets (λ s, contracts_db s !! rj_contract_id request);
  contract ← get_or_raise o (HTTPException 404 (Msg "Contract not found"));
  raise_if (bool_decide (status contract ≠ ContractStatus.PENDING))
    (HTTPException 400 (Msg "Contract is not pending"));;
  (if bool_decide (created_by contract = CreatedBy.FARMER) then
     raise_if (bool_decide (u_type user ≠ UserType.TRADER))
       (HTTPException 403 (Msg "Only traders can reject farmer contracts"))
   else
     raise_if (bool_decide (u_type user ≠ UserType.FARMER)
               || bool_decide (c_farmer_id contract ≠ u_id user))
       (HTTPException 403
          (Msg "Only the specified farmer can reject this contract")));;
  contract ← assign_contract (rj_contract_id request)
    (set_status ContractStatus.REJECTED contract);
  contract ← assign_contract (rj_contract_id request)
    (set_rejected_at (Some now) contract);
  contract ← assign_contract (rj_contract_id request)
    (set_rejected_by (Some (u_id user)) contract);
  contract ← assign_contract (rj_contract_id request)
    (set_rejection_reason (rj_rejection_reason request) contract);
  return_reserved_quantity contract now';;
  mret contract.

Definition cancel_contract (request : CancelContractRequest)
    (email : string) (now now' : timestamp) : M contract :=
  user ← get_current_user_email email;
  o ← gets (λ s, contracts_db s !! cn_contract_id request);
  contract ← get_or_raise o (HTTPException 404 (Msg "Contract not found"));
  raise_if (bool_decide (status contract ≠ ContractStatus.PENDING))
    (HTTPException 400 (Msg "Contract is not pending"));;
  (if bool_decide (created_by contract = CreatedBy.FARMER) then
     raise_if (bool_decide (u_type user ≠ UserType.FARMER)
               || bool_decide (c_farmer_id contract ≠ u_id user))
       (HTTPException 403 (Msg "Only the contract creator can cancel it"))
   else
     raise_if (bool_decide (u_type user ≠ UserType.TRADER)
               || bool_decide (c_trader_id contract ≠ Some (u_id user)))
       (HTTPException 403 (Msg "Only the contract creator can cancel it")));;
  contract ← assign_contract (cn_contract_id request)
    (set_status ContractStatus.CANCELLED contract);
  contract ← assign_contract (cn_contract_id request)
    (set_cancelled_at (Some now) contract);
  return_reserved_quantity contract now';;
  mret contract.

Definition complete_contract (request : CompleteContractRequest)
    (email : string) (now now' : timestamp) : M contract :=
  user ← get_current_user_email email;
  o ← gets (λ s, contracts_db s !! cp_contract_id request);
  contract ← get_or_raise o (HTTPException 404 (Msg "Contract not found"));
  raise_if (bool_decide (status contract ≠ ContractStatus.ACTIVE))
    (HTTPException 400 (Msg "Contract is not active"));;
  raise_if
    (bool_decide
       (Some (u_id user) ∉ [Some (c_farmer_id contract); c_trader_id contract]))
    (HTTPException 403 (Msg "You are not part of this contract"));;
  contract ← assign_contract (cp_contract_id request)
    (set_status ContractStatus.COMPLETED contract);
  contract ← assign_contract (cp_contract_id request)
    (set_completed_at (Some now) contract);
  contract ← assign_contract (cp_contract_id request)
    (set_completed_by (Some (CreatedBy.value (cp_completed_by request)))
       contract);
  product ← products_db_subscript (c_product_id contract);
  product ← assign_product (c_product_id contract)
    (set_committed_qty (num_sub (committed_qty product) (qty contract))
       product);
  product ← assign_product (c_product_id contract)
    (set_total_qty (num_sub (total_qty product) (qty contract)) product);
  assign_product (c_product_id contract) (set_p_updated_at now' product);;
  mret contract.

(** ** The documents a transition leaves *)

(** The contract after [trader_accept_contract]. *)
Definition accepted_by_trader (user : user) (now : timestamp) (c : contract) : contract :=
  set_accepted_by (Some (u_id user))
    (set_accepted_at (Some now)
       (set_status ContractStatus.ACTIVE
          (set_c_trader_id (Some (u_id user)) c))).

(** The contract after [farmer_accept_contract]. *)
Definition accepted_by_farmer (user : user) (now : timestamp) (c : contract) : contract :=
  set_accepted_by (Some (u_id user))
    (set_accepted_at (Some now) (set_status ContractStatus.ACTIVE c)).

(** The contract after [reject_contract]. *)
Definition rejected (user : user) (now : timestamp) (reason : option string)
    (c : contract) : contract :=
  set_rejection_reason reason
    (set_rejected_by (Some (u_id user))
       (set_rejected_at (Some now) (set_status ContractStatus.REJECTED c))).

(** The contract after [cancel_contract]. *)
Definition cancelled (now : timestamp) (c : contract) : contract :=
  set_cancelled_at (Some now) (set_status ContractStatus.CANCELLED c).

(** The contract after [complete_contract]. *)
Definition completed (now : timestamp) (role : CreatedBy.t) (c : contract) : contract :=
  set_completed_by (Some (CreatedBy.value role))
    (set_completed_at (Some now) (set_status ContractStatus.COMPLETED c)).

(** The listing after the reserved quantity has been returned. *)
Definition released (now : timestamp) (c : contract) (p : product) : product :=
  set_p_updated_at now
    (set_reserved_qty (num_sub (reserved_qty p) (qty c)) p).

(** ** Requests and runs *)

(** A request to one of the endpoints, with the id and the clock readings
    the handler draws while serving it.  [AuthEndpoints] stands for
    [register] and [login]: they assign to [users_db] and [sessions] only,
    and are abstracted to an arbitrary change of these two collections. *)
Inductive api_call :=
  | ListProduct (request : ListProductRequest) (email product_id : string)
      (now now' : timestamp)
  | CreateContractByFarmer (request : CreateContractByFarmerRequest)
      (email contract_id : string) (now now' : timestamp)
  | CreateContractByTrader (request : CreateContractByTraderRequest)
      (email contract_id : string) (now : timestamp)
  | TraderAcceptContract (request : AcceptContractRequest) (email : string)
      (now now' : timestamp)
  | FarmerAcceptContract (request : AcceptContractRequest) (email : string)
      (now now' : timestamp)
  | RejectContract (request : RejectContractRequest) (email : string)
      (now now' : timestamp)
  | CancelContract (request : CancelContractRequest) (email : string)
      (now now' : timestamp)
  | CompleteContract (request : CompleteContractRequest) (email : string)
      (now now' : timestamp)
  | AuthEndpoints (users : gmap string user) (sess : gmap string string).

(** The pydantic constraint [Field(gt=0)]: the request body is refused
    before the handler runs. *)
Definition validate (b : bool) : M unit :=
  raise_if (negb b) RequestValidationError.

(** The database after a request has been served, whether it ended in a
    response or in an exception. *)
Definition serve (call : api_call) (s : db) : db :=
  match call with
  | ListProduct request email product_id now now' =>
      ((validate (num_gt (lp_qty request) num_zero);;
        list_product request email product_id now now') s).2
  | CreateContractByFarmer request email contract_id now now' =>
      ((validate (num_gt (cf_price_per_unit request) num_zero);;
        validate (num_gt (cf_qty request) num_zero);;
        create_contract_by_farmer request email contract_id now now') s).2
  | CreateContractByTrader request email contract_id now =>
      ((validate (num_gt (ct_price_per_unit request) num_zero);;
        validate (num_gt (ct_qty request) num_zero);;
        create_contract_by_trader request email contract_id now) s).2
  | TraderAcceptContract request email now now' =>
      (trader_accept_contract request email now now' s).2
  | FarmerAcceptContract request email now now' =>
      (farmer_accept_contract request email now now' s).2
  | RejectContract request email now now' =>
      (reject_contract request email now now' s).2
  | CancelContract request email now now' =>
      (cancel_contract request email now now' s).2
  | CompleteContract request email now now' =>
      (complete_contract request email now now' s).2
  | AuthEndpoints users sess =>
      mk_db users (products_db s) (contracts_db s) sess
  end.

(** [generate_id()] draws a UUID that is not in use. *)
Definition fresh_id (call : api_call) (s : db) : Prop :=
  match call with
  | ListProduct _ _ product_id _ _ => products_db s !! product_id = None
  | CreateContractByFarmer _ _ contract_id _ _
  | CreateContractByTrader _ _ contract_id _ =>
      contracts_db s !! contract_id = None
  | _ => True
  end.

Fixpoint run (calls : list api_call) (s : db) : db :=
  match calls with
  | [] => s
  | call :: calls => run calls (serve call s)
  end.

Fixpoint fresh_ids (calls : list api_call) (s : db) : Prop :=
  match calls with
  | [] => True
  | call :: calls => fresh_id call s ∧ fresh_ids calls (serve call s)
  end.

(** A listing as [list_product] and [seed_data] create it. *)
Definition freshly_listed (p : product) : Prop :=
  is_active p = true ∧ available_qty p = total_qty p
  ∧ reserved_qty p = num_zero ∧ committed_qty p = num_zero.

(** The database at start-up: freshly listed products, no contract. *)
Definition initial (s : db) : Prop :=
  contracts_db s = ∅
  ∧ ∀ k p, products_db s !! k = Some p → freshly_listed p.

Definition reachable (s : db) : Prop :=
  ∃ s0 calls, initial s0 ∧ fresh_ids calls s0 ∧ s = run calls s0.

(** [email] has a session, and the session's user is [user]. *)
Definition logged_in (s : db) (email : string) (user : user) : Prop :=
  ∃ user_id, sessions s !! email = Some user_id
             ∧ users_db s !! user_id = Some user.

(** The four counters of the listing stored under [key], as
    [(total_qty, available_qty, reserved_qty, committed_qty)]. *)
Definition counters (key : string) (s : db) : option (N * N * N * N) :=
  p ← products_db s !! key;
  Some (total_qty p, available_qty p, reserved_qty p, committed_qty p).

(** ** Derived notions *)

(** ** Listings stay active *)




End Model.

(** * Properties *)

(** Unfolds the handlers and the monad down to matches on the database. *)
Ltac munfold :=
  unfold list_product, create_contract_by_farmer, create_contract_by_trader,
    trader_accept_contract, farmer_accept_contract, reject_contract,
    cancel_contract, complete_contract, return_reserved_quantity,
    get_current_user_email, products_db_subscript, assign_contract,
    assign_product, validate, get_or_raise, raise_if, gets, modify, raise,
    mbind, M_bind, mret, M_ret, set_contracts_db, set_products_db in *.

(** Runs a handler forward along the hypotheses: a lookup or a field the
    context gives the value of is replaced by it, a decided test by its
    truth value. *)
Ltac mforward :=
  repeat first
    [ progress simpl
    | match goal with
      | H : ?l = _ |- context [?l] => rewrite H
      | |- context [bool_decide ?P] =>
          first [ rewrite (bool_decide_eq_true_2 P) by (done || congruence)
                | rewrite (bool_decide_eq_false_2 P)
                    by (done || congruence || (intros ?; congruence)) ]
      end ];
  rewrite ?insert_insert_eq.

(** Splits a handler on every test it makes. *)
Ltac mcases :=
  repeat (first [case_bool_decide | case_match]; simplify_eq/=; try done);
  repeat match goal with
         | H : ¬ (_ ≠ _) |- _ => apply dec_stable in H
         end;
  try congruence.

Section Theory.
Context {N : Type} `{PyNum N}.

#[local] Abbreviation db := (@db N).
#[local] Abbreviation product := (@product N).
#[local] Abbreviation contract := (@contract N).
#[local] Abbreviation api_call := (@api_call N).

Implicit Types (s : db) (email : string) (now : timestamp).

(** *** What a successful call returns and stores *)

Lemma create_contract_by_farmer_ok s request email contract_id now now'
    user product :
  logged_in s email user →
  u_type user = UserType.FARMER →
  products_db s !! cf_product_id request = Some product →
  p_farmer_id product = u_id user →
  num_gt (cf_qty request)
    (num_sub (available_qty product) (reserved_qty product)) = false →
  create_contract_by_farmer request email contract_id now now' s =
    (Ok (farmer_contract request user product contract_id now),
     mk_db (users_db s)
       (<[cf_product_id request :=
            set_p_updated_at now'
              (set_reserved_qty
                 (num_add (reserved_qty product) (cf_qty request)) product)]>
          (products_db s))
       (<[contract_id := farmer_contract request user product contract_id now]>
          (contracts_db s))
       (sessions s)).
Proof.
  intros (user_id & Hs & Hu) Ht Hp Hf Hq. munfold. mforward. done.
Qed.

Lemma create_contract_by_trader_ok s request email contract_id now
    user product :
  logged_in s email user →
  u_type user = UserType.TRADER →
  products_db s !! ct_product_id request = Some product →
  ct_farmer_id request = p_farmer_id product →
  num_gt (ct_qty request) (available_qty product) = false →
  create_contract_by_trader request email contract_id now s =
    (Ok (trader_contract request user product contract_id now),
     mk_db (users_db s) (products_db s)
       (<[contract_id := trader_contract request user product contract_id now]>
          (contracts_db s))
       (sessions s)).
Proof.
  intros (user_id & Hs & Hu) Ht Hp Hf Hq. munfold. mforward. done.
Qed.

Lemma trader_accept_contract_ok s request email now now' user contract
    product :
  logged_in s email user →
  u_type user = UserType.TRADER →
  contracts_db s !! ac_contract_id request = Some contract →
  created_by contract = CreatedBy.FARMER →
  status contract = ContractStatus.PENDING →
  products_db s !! c_product_id contract = Some product →
  trader_accept_contract request email now now' s =
    (Ok (accepted_by_trader user now contract),
     mk_db (users_db s)
       (<[c_product_id contract :=
            set_p_updated_at now'
              (set_available_qty
                 (num_sub (available_qty product) (qty contract))
                 (set_committed_qty
                    (num_add (committed_qty product) (qty contract))
                    (set_reserved_qty
                       (num_sub (reserved_qty product) (qty contract))
                       product)))]>
          (products_db s))
       (<[ac_contract_id request := accepted_by_trader user now contract]>
          (contracts_db s))
       (sessions s)).
Proof.
  intros (user_id & Hs & Hu) Ht Hc Hcb Hst Hp. munfold. mforward. done.
Qed.

Lemma farmer_accept_contract_ok s request email now now' user contract
    product :
  logged_in s email user →
  u_type user = UserType.FARMER →
  contracts_db s !! ac_contract_id request = Some contract →
  created_by contract = CreatedBy.TRADER →
  status contract = ContractStatus.PENDING →
  c_farmer_id contract = u_id user →
  products_db s !! c_product_id contract = Some product →
  num_gt (qty contract) (available_qty product) = false →
  farmer_accept_contract request email now now' s =
    (Ok (accepted_by_farmer user now contract),
     mk_db (users_db s)
       (<[c_product_id contract :=
            set_p_updated_at now'
              (set_committed_qty
                 (num_add (committed_qty product) (qty contract))
                 (set_available_qty
                    (num_sub (available_qty product) (qty contract))
                    product))]>
          (products_db s))
       (<[ac_contract_id request := accepted_by_farmer user now contract]>
          (contracts_db s))
       (sessions s)).
Proof.
  intros (user_id & Hs & Hu) Ht Hc Hcb Hst Hf Hp Hq. munfold. mforward. done.
Qed.

Lemma reject_contract_farmer_created_ok s request email now now' user
    contract product :
  logged_in s email user →
  contracts_db s !! rj_contract_id request = Some contract →
  status contract = ContractStatus.PENDING →
  created_by contract = CreatedBy.FARMER →
  u_type user = UserType.TRADER →
  products_db s !! c_product_id contract = Some product →
  reject_contract request email now now' s =
    (Ok (rejected user now (rj_rejection_reason request) contract),
     mk_db (users_db s)
       (<[c_product_id contract := released now' contract product]>
          (products_db s))
       (<[rj_contract_id request :=
            rejected user now (rj_rejection_reason request) contract]>
          (contracts_db s))
       (sessions s)).
Proof.
  intros (user_id & Hs & Hu) Hc Hst Hcb Ht Hp. munfold. mforward. done.
Qed.

Lemma reject_contract_trader_created_ok s request email now now' user
    contract :
  logged_in s email user →
  contracts_db s !! rj_contract_id request = Some contract →
  status contract = ContractStatus.PENDING →
  created_by contract = CreatedBy.TRADER →
  u_type user = UserType.FARMER →
  c_farmer_id contract = u_id user →
  reject_contract request email now now' s =
    (Ok (rejected user now (rj_rejection_reason request) contract),
     mk_db (users_db s) (products_db s)
       (<[rj_contract_id request :=
            rejected user now (rj_rejection_reason request) contract]>
          (contracts_db s))
       (sessions s)).
Proof.
  intros (user_id & Hs & Hu) Hc Hst Hcb Ht Hf. munfold. mforward. done.
Qed.

Lemma cancel_contract_farmer_created_ok s request email now now' user
    contract product :
  logged_in s email user →
  contracts_db s !! cn_contract_id request = Some contract →
  status contract = ContractStatus.PENDING →
  created_by contract = CreatedBy.FARMER →
  u_type user = UserType.FARMER →
  c_farmer_id contract = u_id user →
  products_db s !! c_product_id contract = Some product →
  cancel_contract request email now now' s =
    (Ok (cancelled now contract),
     mk_db (users_db s)
       (<[c_product_id contract := released now' contract product]>
          (products_db s))
       (<[cn_contract_id request := cancelled now contract]>
          (contracts_db s))
       (sessions s)).
Proof.
  intros (user_id & Hs & Hu) Hc Hst Hcb Ht Hf Hp. munfold. mforward. done.
Qed.

Lemma cancel_contract_trader_created_ok s request email now now' user
    contract :
  logged_in s email user →
  contracts_db s !! cn_contract_id request = Some contract →
  status contract = ContractStatus.PENDING →
  created_by contract = CreatedBy.TRADER →
  u_type user = UserType.TRADER →
  c_trader_id contract = Some (u_id user) →
  cancel_contract request email now now' s =
    (Ok (cancelled now contract),
     mk_db (users_db s) (products_db s)
       (<[cn_contract_id request := cancelled now contract]>
          (contracts_db s))
       (sessions s)).
Proof.
  intros (user_id & Hs & Hu) Hc Hst Hcb Ht Hf. munfold. mforward. done.
Qed.

Lemma complete_contract_ok s request email now now' user contract product :
  logged_in s email user →
  contracts_db s !! cp_contract_id request = Some contract →
  status contract = ContractStatus.ACTIVE →
  u_id user = c_farmer_id contract ∨ c_trader_id contract = Some (u_id user) →
  products_db s !! c_product_id contract = Some product →
  complete_contract request email now now' s =
    (Ok (completed now (cp_completed_by request) contract),
     mk_db (users_db s)
       (<[c_product_id contract :=
            set_p_updated_at now'
              (set_total_qty (num_sub (total_qty product) (qty contract))
                 (set_committed_qty
                    (num_sub (committed_qty product) (qty contract))
                    product))]>
          (products_db s))
       (<[cp_contract_id request :=
            completed now (cp_completed_by request) contract]>
          (contracts_db s))
       (sessions s)).
Proof.
  intros (user_id & Hs & Hu) Hc Hst Hparty Hp. munfold. mforward.
  rewrite bool_decide_eq_false_2; [mforward; done|].
  intros Hnot. apply Hnot. destruct Hparty as [-> | ->]; set_solver.
Qed.

(** *** What a call that succeeded was given *)

Lemma trader_accept_contract_inv s request email now now' c' s' :
  trader_accept_contract request email now now' s = (Ok c', s') →
  ∃ user contract product,
    logged_in s email user ∧ u_type user = UserType.TRADER
    ∧ contracts_db s !! ac_contract_id request = Some contract
    ∧ created_by contract = CreatedBy.FARMER
    ∧ status contract = ContractStatus.PENDING
    ∧ products_db s !! c_product_id contract = Some product.
Proof.
  intros Hrun. munfold. mcases. unfold logged_in. eauto 12.
Qed.

Lemma farmer_accept_contract_inv s request email now now' c' s' :
  farmer_accept_contract request email now now' s = (Ok c', s') →
  ∃ user contract product,
    logged_in s email user ∧ u_type user = UserType.FARMER
    ∧ contracts_db s !! ac_contract_id request = Some contract
    ∧ created_by contract = CreatedBy.TRADER
    ∧ status contract = ContractStatus.PENDING
    ∧ c_farmer_id contract = u_id user
    ∧ products_db s !! c_product_id contract = Some product
    ∧ num_gt (qty contract) (available_qty product) = false.
Proof.
  intros Hrun. munfold. mcases. unfold logged_in. eauto 14.
Qed.

Lemma create_contract_by_trader_inv s request email contract_id now c' s' :
  create_contract_by_trader request email contract_id now s = (Ok c', s') →
  ∃ user product,
    logged_in s email user ∧ u_type user = UserType.TRADER
    ∧ products_db s !! ct_product_id request = Some product
    ∧ ct_farmer_id request = p_farmer_id product
    ∧ num_gt (ct_qty request) (available_qty product) = false.
Proof.
  intros Hrun. munfold. mcases. unfold logged_in. eauto 10.
Qed.

Lemma reject_contract_inv s request email now now' c' s' :
  reject_contract request email now now' s = (Ok c', s') →
  ∃ user contract,
    logged_in s email user
    ∧ contracts_db s !! rj_contract_id request = Some contract
    ∧ status contract = ContractStatus.PENDING
    ∧ ((created_by contract = CreatedBy.FARMER
        ∧ u_type user = UserType.TRADER
        ∧ is_Some (products_db s !! c_product_id contract))
       ∨ (created_by contract = CreatedBy.TRADER
          ∧ u_type user = UserType.FARMER
          ∧ c_farmer_id contract = u_id user)).
Proof.
  intros Hrun. munfold. mcases.
  all: unfold logged_in; eexists _, _; split_and!; eauto.
  all: destruct (created_by _) eqn:?; naive_solver.
Qed.

Lemma cancel_contract_inv s request email now now' c' s' :
  cancel_contract request email now now' s = (Ok c', s') →
  ∃ user contract,
    logged_in s email user
    ∧ contracts_db s !! cn_contract_id request = Some contract
    ∧ status contract = ContractStatus.PENDING
    ∧ ((created_by contract = CreatedBy.FARMER
        ∧ u_type user = UserType.FARMER
        ∧ c_farmer_id contract = u_id user
        ∧ is_Some (products_db s !! c_product_id contract))
       ∨ (created_by contract = CreatedBy.TRADER
          ∧ u_type user = UserType.TRADER
          ∧ c_trader_id contract = Some (u_id user))).
Proof.
  intros Hrun. munfold. mcases.
  all: unfold logged_in; eexists _, _; split_and!; eauto.
  all: destruct (created_by _) eqn:?; naive_solver.
Qed.

Lemma complete_contract_inv s request email now now' c' s' :
  complete_contract request email now now' s = (Ok c', s') →
  ∃ user contract product,
    logged_in s email user
    ∧ contracts_db s !! cp_contract_id request = Some contract
    ∧ status contract = ContractStatus.ACTIVE
    ∧ (u_id user = c_farmer_id contract
       ∨ c_trader_id contract = Some (u_id user))
    ∧ products_db s !! c_product_id contract = Some product.
Proof.
  intros Hrun. munfold. mcases.
  unfold logged_in. eexists _, _, _. split_and!; eauto.
  match goal with
  | Hin : _ ∈ _ |- _ =>
      apply elem_of_cons in Hin as [Hin | Hin%list_elem_of_singleton]
  end; [left; congruence | right; done].
Qed.

Lemma create_contract_by_farmer_inv s request email contract_id now now'
    c' s' :
  create_contract_by_farmer request email contract_id now now' s
    = (Ok c', s') →
  ∃ user product,
    logged_in s email user ∧ u_type user = UserType.FARMER
    ∧ products_db s !! cf_product_id request = Some product
    ∧ p_farmer_id product = u_id user
    ∧ num_gt (cf_qty request)
        (num_sub (available_qty product) (reserved_qty product)) = false.
Proof.
  intros Hrun. munfold. mcases. unfold logged_in. eauto 10.
Qed.

(** *** Calls on a contract that is not in the required state *)

Lemma trader_accept_contract_not_pending s request email now now' contract :
  contracts_db s !! ac_contract_id request = Some contract →
  status contract ≠ ContractStatus.PENDING →
  (∃ e, trader_accept_contract request email now now' s = (Raise e, s))
  ∧ ∀ user, logged_in s email user → u_type user = UserType.TRADER →
      created_by contract = CreatedBy.FARMER →
      trader_accept_contract request email now now' s =
        (Raise (HTTPException 400 (Msg "Contract is not pending")), s).
Proof.
  intros Hc Hst. split.
  - munfold. mcases; eauto.
  - intros user (user_id & Hs & Hu) Ht Hcb. munfold. mforward. done.
Qed.

Lemma farmer_accept_contract_not_pending s request email now now' contract :
  contracts_db s !! ac_contract_id request = Some contract →
  status contract ≠ ContractStatus.PENDING →
  (∃ e, farmer_accept_contract request email now now' s = (Raise e, s))
  ∧ ∀ user, logged_in s email user → u_type user = UserType.FARMER →
      created_by contract = CreatedBy.TRADER →
      farmer_accept_contract request email now now' s =
        (Raise (HTTPException 400 (Msg "Contract is not pending")), s).
Proof.
  intros Hc Hst. split.
  - munfold. mcases; eauto.
  - intros user (user_id & Hs & Hu) Ht Hcb. munfold. mforward. done.
Qed.




(** ** Accepting with too little stock *)

(** C2. A buyer-initiated (trader-created) PENDING contract whose listing
    has [available_qty] below the contract's [qty]: accepting it fails
    whoever calls, and the database after the call is the database before
    it, so the contract is still stored PENDING with every field as it
    was and no listing counter has moved.  When the caller is the farmer
    the contract names, the exception is the 400 "Insufficient available
    quantity" of the acceptance-time check.  The trader endpoint refuses
    the contract as well. *)
Theorem farmer_accept_contract_insufficient s request email now now'
    contract product :
  contracts_db s !! ac_contract_id request = Some contract →
  created_by contract = CreatedBy.TRADER →
  status contract = ContractStatus.PENDING →
  products_db s !! c_product_id contract = Some product →
  num_gt (qty contract) (available_qty product) = true →
  (∃ e, farmer_accept_contract request email now now' s = (Raise e, s))
  ∧ (∃ e, trader_accept_contract request email now now' s = (Raise e, s))
  ∧ (∀ user, logged_in s email user → u_type user = UserType.FARMER →
       c_farmer_id contract = u_id user →
       farmer_accept_contract request email now now' s =
         (Raise (HTTPException 400
            (MsgQty "Insufficient available quantity. Available: "
               (available_qty product) (p_unit product))), s)).
Proof.
  intros Hc Hcb Hst Hp Hq. split_and!.
  - munfold. mcases; eauto.
  - munfold. mcases; eauto.
  - intros user (user_id & Hs & Hu) Ht Hf. munfold. mforward. done.
Qed.

(** ** Accepting twice *)

(** C5. After an accept that succeeded, on either endpoint, the listing's
    counters have moved by the contract's [qty] once; a second accept of
    the same contract fails on both endpoints whoever calls, with the 400
    "Contract is not pending" when the caller has the endpoint's role, and
    leaves the database, hence every counter, as the first accept left
    it. *)
Theorem accept_twice s request email now now' c1 s1 :
  trader_accept_contract request email now now' s = (Ok c1, s1)
  ∨ farmer_accept_contract request email now now' s = (Ok c1, s1) →
  ∃ contract product,
    contracts_db s !! ac_contract_id request = Some contract
    ∧ products_db s !! c_product_id contract = Some product
    ∧ counters (c_product_id contract) s1 =
        Some (total_qty product,
              num_sub (available_qty product) (qty contract),
              match created_by contract with
              | CreatedBy.FARMER =>
                  num_sub (reserved_qty product) (qty contract)
              | CreatedBy.TRADER => reserved_qty product
              end,
              num_add (committed_qty product) (qty contract))
    ∧ ∀ email2 now2 now2',
        (∃ e, trader_accept_contract request email2 now2 now2' s1
                = (Raise e, s1))
        ∧ (∃ e, farmer_accept_contract request email2 now2 now2' s1
                  = (Raise e, s1))
        ∧ (∀ user2, logged_in s1 email2 user2 →
             match created_by contract with
             | CreatedBy.FARMER =>
                 u_type user2 = UserType.TRADER →
                 trader_accept_contract request email2 now2 now2' s1 =
                   (Raise (HTTPException 400 (Msg "Contract is not pending")),
                    s1)
             | CreatedBy.TRADER =>
                 u_type user2 = UserType.FARMER →
                 farmer_accept_contract request email2 now2 now2' s1 =
                   (Raise (HTTPException 400 (Msg "Contract is not pending")),
                    s1)
             end).
Proof.
  intros [Hrun | Hrun].
  - destruct (trader_accept_contract_inv _ _ _ _ _ _ _ Hrun)
      as (user & contract & product & Hlog & Ht & Hc & Hcb & Hst & Hp).
    rewrite (trader_accept_contract_ok _ _ _ _ _ _ _ _ Hlog Ht Hc Hcb Hst Hp)
      in Hrun.
    injection Hrun as <- <-. exists contract, product. split_and!; [done..| |].
    + unfold counters. simpl. rewrite lookup_insert_eq. simpl.
      by rewrite Hcb.
    + intros email2 now2 now2'.
      set (s1 := mk_db _ _ _ _).
      assert (Hc1 : contracts_db s1 !! ac_contract_id request
                    = Some (accepted_by_trader user now contract))
        by apply lookup_insert_eq.
      assert (Hst1 : status (accepted_by_trader user now contract)
                     ≠ ContractStatus.PENDING) by done.
      destruct (trader_accept_contract_not_pending s1 request email2 now2
                  now2' _ Hc1 Hst1) as [He1 H400].
      destruct (farmer_accept_contract_not_pending s1 request email2 now2
                  now2' _ Hc1 Hst1) as [He2 _].
      split_and!; [done..|]. intros user2 Hlog2. rewrite Hcb.
      intros Ht2. by apply (H400 user2).
  - destruct (farmer_accept_contract_inv _ _ _ _ _ _ _ Hrun)
      as (user & contract & product & Hlog & Ht & Hc & Hcb & Hst & Hf & Hp
          & Hq).
    rewrite (farmer_accept_contract_ok _ _ _ _ _ _ _ _ Hlog Ht Hc Hcb Hst Hf
               Hp Hq) in Hrun.
    injection Hrun as <- <-. exists contract, product. split_and!; [done..| |].
    + unfold counters. simpl. rewrite lookup_insert_eq. simpl.
      by rewrite Hcb.
    + intros email2 now2 now2'.
      set (s1 := mk_db _ _ _ _).
      assert (Hc1 : contracts_db s1 !! ac_contract_id request
                    = Some (accepted_by_farmer user now contract))
        by apply lookup_insert_eq.
      assert (Hst1 : status (accepted_by_farmer user now contract)
                     ≠ ContractStatus.PENDING) by done.
      destruct (trader_accept_contract_not_pending s1 request email2 now2
                  now2' _ Hc1 Hst1) as [He1 _].
      destruct (farmer_accept_contract_not_pending s1 request email2 now2
                  now2' _ Hc1 Hst1) as [He2 H400].
      split_and!; [done..|]. intros user2 Hlog2. rewrite Hcb.
      intros Ht2. by apply (H400 user2).
Qed.

(** ** The state machine *)

Lemma serve_status (call : api_call) s k (c : contract) :
  fresh_id call s →
  contracts_db s !! k = Some c →
  ∃ c', contracts_db (serve call s) !! k = Some c'
        ∧ (status c = ContractStatus.ACTIVE →
           status c' = ContractStatus.ACTIVE
           ∨ status c' = ContractStatus.COMPLETED)
        ∧ (status c = ContractStatus.REJECTED
           ∨ status c = ContractStatus.CANCELLED
           ∨ status c = ContractStatus.COMPLETED →
           status c' = status c).
Proof.
  intros Hfresh Hk.
  destruct call; simpl in *; munfold; mcases.
  all: rewrite ?insert_insert_eq.
  all: try (eexists; split; [eassumption | naive_solver]).
  all: match goal with
       | |- context [<[?i := _]> _ !! ?j] =>
           destruct (decide (i = j)) as [<- | Hne];
           [ rewrite lookup_insert_eq | rewrite lookup_insert_ne by done ]
       end.
  all: try (eexists; split; [eassumption | naive_solver]).
  all: try congruence.
  all: simplify_eq; eexists; (split; [reflexivity|]); simpl.
  all: split; [intros ? | intros [? | [? | ?]]].
  all: first [congruence | left; congruence | right; congruence].
Qed.
(** C9. Along any run whose generated ids are unused, from any database,
    reachable or not: a contract that is ACTIVE stays ACTIVE or becomes
    COMPLETED, and a contract that is REJECTED, CANCELLED or COMPLETED
    keeps its status for ever. *)
Theorem status_never_goes_back (calls : list api_call) s k (c : contract) :
  fresh_ids calls s →
  contracts_db s !! k = Some c →
  ∃ c', contracts_db (run calls s) !! k = Some c'
        ∧ (status c = ContractStatus.ACTIVE →
           status c' = ContractStatus.ACTIVE
           ∨ status c' = ContractStatus.COMPLETED)
        ∧ (status c = ContractStatus.REJECTED
           ∨ status c = ContractStatus.CANCELLED
           ∨ status c = ContractStatus.COMPLETED →
           status c' = status c).
Proof.
  revert s c. induction calls as [| call calls IH]; intros s c Hfresh Hk.
  - exists c. simpl. split_and!; [done | by left | done].
  - destruct Hfresh as [Hcall Hcalls].
    destruct (serve_status call s k c Hcall Hk) as (c1 & Hk1 & Hact1 & Hterm1).
    destruct (IH _ c1 Hcalls Hk1) as (c2 & Hk2 & Hact2 & Hterm2).
    exists c2. simpl. split_and!; [done | |].
    + intros Hact. destruct (Hact1 Hact) as [Hs1 | Hs1].
      * by apply Hact2.
      * right. rewrite <- Hs1. apply Hterm2. rewrite Hs1. by right; right.
    + intros Hterm. rewrite <- (Hterm1 Hterm). apply Hterm2.
      by rewrite (Hterm1 Hterm).
Qed.



(** ** Buyer-initiated proposals *)



(** ** What a transition writes on the contract *)







(** ** Units *)

(** C10. No handler compares the unit of a request with the unit of the
    listing.  A producer-initiated proposal in another unit than the
    listing's is created as soon as the numeric check [qty <= available_qty
    - reserved_qty] passes, and a trader's acceptance of it then succeeds;
    a buyer-initiated proposal in another unit is created as soon as
    [qty <= available_qty], and the farmer's acceptance succeeds as soon
    as the same check passes again.  The contract keeps the request's
    unit, and each counter moves by the request's [qty] as a bare
    number. *)
Theorem unit_is_never_checked s pid (product : product) :
  products_db s !! pid = Some product →
  (∀ request email contract_id now now' farmer email2 trader now2 now2',
     cf_product_id request = pid →
     cf_unit request ≠ p_unit product →
     logged_in s email farmer → u_type farmer = UserType.FARMER →
     p_farmer_id product = u_id farmer →
     num_gt (cf_qty request)
       (num_sub (available_qty product) (reserved_qty product)) = false →
     logged_in s email2 trader → u_type trader = UserType.TRADER →
     ∃ c s1 c2 s2,
       create_contract_by_farmer request email contract_id now now' s
         = (Ok c, s1)
       ∧ c_unit c = cf_unit request ∧ qty c = cf_qty request
       ∧ counters pid s1 =
           Some (total_qty product, available_qty product,
                 num_add (reserved_qty product) (cf_qty request),
                 committed_qty product)
       ∧ trader_accept_contract (mk_AcceptContractRequest contract_id)
           email2 now2 now2' s1 = (Ok c2, s2)
       ∧ counters pid s2 =
           Some (total_qty product,
                 num_sub (available_qty product) (cf_qty request),
                 num_sub (num_add (reserved_qty product) (cf_qty request))
                   (cf_qty request),
                 num_add (committed_qty product) (cf_qty request)))
  ∧ (∀ request email contract_id now trader email2 farmer now2 now2',
     ct_product_id request = pid →
     ct_unit request ≠ p_unit product →
     logged_in s email trader → u_type trader = UserType.TRADER →
     ct_farmer_id request = p_farmer_id product →
     num_gt (ct_qty request) (available_qty product) = false →
     logged_in s email2 farmer → u_type farmer = UserType.FARMER →
     u_id farmer = ct_farmer_id request →
     ∃ c s1 c2 s2,
       create_contract_by_trader request email contract_id now s = (Ok c, s1)
       ∧ c_unit c = ct_unit request ∧ qty c = ct_qty request
       ∧ counters pid s1 = counters pid s
       ∧ farmer_accept_contract (mk_AcceptContractRequest contract_id)
           email2 now2 now2' s1 = (Ok c2, s2)
       ∧ counters pid s2 =
           Some (total_qty product,
                 num_sub (available_qty product) (ct_qty request),
                 reserved_qty product,
                 num_add (committed_qty product) (ct_qty request))).
Proof.
  intros Hp. split.
  - intros request email contract_id now now' farmer email2 trader now2 now2'
      Hpid Hunit Hlog Ht Hown Hq Hlog2 Ht2. subst pid.
    eexists _, _, _, _. split_and!.
    + by apply (create_contract_by_farmer_ok _ _ _ _ _ _ farmer product).
    + done.
    + done.
    + unfold counters. simpl. by rewrite lookup_insert_eq.
    + apply (trader_accept_contract_ok _ _ _ _ _ trader
               (farmer_contract request farmer product contract_id now)
               (set_p_updated_at now'
                  (set_reserved_qty
                     (num_add (reserved_qty product) (cf_qty request))
                     product))); try done.
      * simpl. apply lookup_insert_eq.
      * simpl. apply lookup_insert_eq.
    + unfold counters. simpl. by rewrite lookup_insert_eq.
  - intros request email contract_id now trader email2 farmer now2 now2'
      Hpid Hunit Hlog Ht Hown Hq Hlog2 Ht2 Hid. subst pid.
    eexists _, _, _, _. split_and!.
    + by apply (create_contract_by_trader_ok _ _ _ _ _ trader product).
    + done.
    + done.
    + done.
    + apply (farmer_accept_contract_ok _ _ _ _ _ farmer
               (trader_contract request trader product contract_id now)
               product); try done.
      simpl. apply lookup_insert_eq.
    + unfold counters. simpl. by rewrite lookup_insert_eq.
Qed.

(** ** Releasing a reservation *)

(** C6, as the handlers have it.  Rejecting or cancelling a
    producer-initiated PENDING contract subtracts the contract's [qty]
    from [reserved_qty] and succeeds; no test guards the subtraction, so
    the result is stored whatever its sign, and the other counters are
    untouched. *)
Theorem release_is_unchecked s contract_id (contract : contract)
    (product : product) :
  contracts_db s !! contract_id = Some contract →
  status contract = ContractStatus.PENDING →
  created_by contract = CreatedBy.FARMER →
  products_db s !! c_product_id contract = Some product →
  (∀ email user reason now now',
     logged_in s email user → u_type user = UserType.TRADER →
     ∃ c' s',
       reject_contract (mk_RejectContractRequest contract_id reason) email
         now now' s = (Ok c', s')
       ∧ counters (c_product_id contract) s' =
           Some (total_qty product, available_qty product,
                 num_sub (reserved_qty product) (qty contract),
                 committed_qty product))
  ∧ (∀ email user now now',
     logged_in s email user → u_type user = UserType.FARMER →
     c_farmer_id contract = u_id user →
     ∃ c' s',
       cancel_contract (mk_CancelContractRequest contract_id) email
         now now' s = (Ok c', s')
       ∧ counters (c_product_id contract) s' =
           Some (total_qty product, available_qty product,
                 num_sub (reserved_qty product) (qty contract),
                 committed_qty product)).
Proof.
  intros Hc Hst Hcb Hp. split.
  - intros email user reason now now' Hlog Ht. eexists _, _. split.
    + by apply (reject_contract_farmer_created_ok _ _ _ _ _ user contract
                  product).
    + unfold counters. simpl. by rewrite lookup_insert_eq.
  - intros email user now now' Hlog Ht Hf. eexists _, _. split.
    + by apply (cancel_contract_farmer_created_ok _ _ _ _ _ user contract
                  product).
    + unfold counters. simpl. by rewrite lookup_insert_eq.
Qed.

(** ** Proposing and withdrawing *)





End Theory.

(** * The seeded platform, in Python's floats *)

Module Seed.

(** Two of the users of [seed_data], logged in, and its soybean listing
    ([seed_data] draws the ids with [generate_id]; fixed names stand for
    them here). *)
Definition farmer1 : user :=
  mk_user "farmer-1" "farmer1@test.com" UserType.FARMER "Rajesh Kumar".

Definition trader1 : user :=
  mk_user "trader-1" "trader1@test.com" UserType.TRADER
    "Arun Traders Pvt Ltd".

Definition users : gmap string user :=
  <["farmer-1" := farmer1]> (<["trader-1" := trader1]> ∅).

Definition logins : gmap string string :=
  <["farmer1@test.com" := "farmer-1"]>
    (<["trader1@test.com" := "trader-1"]> ∅).

Definition soybean : @product float :=
  mk_product "product-1" "farmer-1" ProductType.SOYBEAN
    1000%float 1000%float 0%float 0%float UnitType.KG true "t0" "t0".

Definition seeded : @db float :=
  mk_db users (<["product-1" := soybean]> ∅) ∅ logins.

(** The farmer's proposal of [q] units of the listing at 45 a unit. *)
Definition propose (q : float) (unit : UnitType.t)
    : @CreateContractByFarmerRequest float :=
  mk_CreateContractByFarmerRequest "product-1" 45%float q unit None None.

(** The trader's offer for [q] units of the listing at 45 a unit. *)
Definition offer (q : float) (unit : UnitType.t)
    : @CreateContractByTraderRequest float :=
  mk_CreateContractByTraderRequest "farmer-1" "product-1" 45%float q unit
    None None.

(** The farmer reserves 600 for a proposal of his own, then accepts a
    trader's offer for 600; a trader then accepts the farmer's
    proposal. *)
Definition oversell : list (@api_call float) :=
  [ CreateContractByFarmer (propose 600%float UnitType.KG)
      "farmer1@test.com" "contract-1" "t1" "t2";
    CreateContractByTrader (offer 600%float UnitType.KG)
      "trader1@test.com" "contract-2" "t3";
    FarmerAcceptContract (mk_AcceptContractRequest "contract-2")
      "farmer1@test.com" "t4" "t5";
    TraderAcceptContract (mk_AcceptContractRequest "contract-1")
      "trader1@test.com" "t6" "t7" ].

End Seed.

Lemma seeded_initial : initial Seed.seeded.
Proof.
  split; [done|]. intros k p. unfold Seed.seeded. simpl.
  rewrite lookup_insert. case_decide; [|by rewrite lookup_empty].
  intros [= <-]. by repeat split.
Qed.

(** C1, at a failing input.  From the seeded database, with unused ids:
    after the four requests of [Seed.oversell], each of which succeeds
    (both contracts end ACTIVE), the soybean listing has [available_qty = -200] and
    [committed_qty = 1200] against [total_qty = 1000].  The database is
    reachable. *)
Theorem oversell_breaks_the_counters :
  reachable (run Seed.oversell Seed.seeded)
  ∧ status <$> contracts_db (run Seed.oversell Seed.seeded) !! "contract-1"
    = Some ContractStatus.ACTIVE
  ∧ status <$> contracts_db (run Seed.oversell Seed.seeded) !! "contract-2"
    = Some ContractStatus.ACTIVE
  ∧ counters "product-1" (run Seed.oversell Seed.seeded)
    = Some (1000, -200, 0, 1200)%float
  ∧ num_gt (0%float) (-200)%float = true
  ∧ num_gt (1200%float) (1000%float) = true.
Proof.
  split_and!.
  - exists Seed.seeded, Seed.oversell. split_and!; [apply seeded_initial| |done].
    vm_compute. done.
  - vm_compute. reflexivity.
  - vm_compute. reflexivity.
  - vm_compute. reflexivity.
  - reflexivity.
  - reflexivity.
Qed.

(** * The worked scenario *)

(** C3.  In Python's floats: from a listing with
    [total_qty = available_qty = 1000] and
    [reserved_qty = committed_qty = 0], the owner's proposal of 300
    succeeds and leaves the counters at (1000, 1000, 300, 0), written
    (total, available, reserved, committed); a trader's acceptance of
    that contract succeeds and leaves (1000, 700, 0, 300); its
    completion by either party succeeds and leaves (700, 700, 0, 0). *)
Theorem producer_scenario (s : @db float) request email farmer product
    contract_id now1 now1' email2 trader now2 now2' email3 party role
    now3 now3' :
  logged_in s email farmer → u_type farmer = UserType.FARMER →
  products_db s !! cf_product_id request = Some product →
  p_farmer_id product = u_id farmer →
  total_qty product = 1000%float →
  available_qty product = 1000%float →
  reserved_qty product = 0%float →
  committed_qty product = 0%float →
  cf_qty request = 300%float →
  logged_in s email2 trader → u_type trader = UserType.TRADER →
  logged_in s email3 party → party = farmer ∨ party = trader →
  ∃ c1 s1 c2 s2 c3 s3,
    create_contract_by_farmer request email contract_id now1 now1' s
      = (Ok c1, s1)
    ∧ counters (cf_product_id request) s1
      = Some (1000, 1000, 300, 0)%float
    ∧ trader_accept_contract (mk_AcceptContractRequest contract_id) email2
        now2 now2' s1 = (Ok c2, s2)
    ∧ counters (cf_product_id request) s2
      = Some (1000, 700, 0, 300)%float
    ∧ complete_contract (mk_CompleteContractRequest contract_id role) email3
        now3 now3' s2 = (Ok c3, s3)
    ∧ counters (cf_product_id request) s3
      = Some (700, 700, 0, 0)%float.
Proof.
  intros Hlog Ht Hp Hown Htot Hav Hres Hcom Hq Hlog2 Ht2 Hlog3 Hparty.
  assert (Hcheck : num_gt (cf_qty request)
            (num_sub (available_qty product) (reserved_qty product)) = false)
    by (rewrite Hq, Hav, Hres; reflexivity).
  eexists _, _, _, _, _, _. split_and!.
  - by apply (create_contract_by_farmer_ok _ _ _ _ _ _ farmer product).
  - unfold counters. simpl. rewrite lookup_insert_eq. simpl.
    rewrite Htot, Hav, Hres, Hcom, Hq. reflexivity.
  - apply (trader_accept_contract_ok _ _ _ _ _ trader
             (farmer_contract request farmer product contract_id now1)
             (set_p_updated_at now1'
                (set_reserved_qty
                   (num_add (reserved_qty product) (cf_qty request))
                   product))); try done.
    + simpl. apply lookup_insert_eq.
    + simpl. apply lookup_insert_eq.
  - unfold counters. simpl. rewrite lookup_insert_eq. simpl.
    rewrite Htot, Hav, Hres, Hcom, Hq. reflexivity.
  - eapply (complete_contract_ok _ _ _ _ _ party
              (accepted_by_trader trader now2
                 (farmer_contract request farmer product contract_id now1)));
      try done.
    + simpl. apply lookup_insert_eq.
    + simpl. destruct Hparty as [-> | ->]; [by left | by right].
    + simpl. rewrite insert_insert_eq. apply lookup_insert_eq.
  - unfold counters. simpl. rewrite lookup_insert_eq. simpl.
    rewrite Htot, Hav, Hres, Hcom, Hq. reflexivity.
Qed.

(** * Instances *)

Module Instances.

(** ** States of the seeded platform the instances start from *)

(** A proposal of the farmer's for 300 is pending. *)
Definition proposed : @db float :=
  run [ CreateContractByFarmer (Seed.propose 300%float UnitType.KG)
          "farmer1@test.com" "contract-1" "t1" "t2" ] Seed.seeded.

(** It has been accepted by the trader. *)
Definition accepted : @db float :=
  run [ TraderAcceptContract (mk_AcceptContractRequest "contract-1")
          "trader1@test.com" "t3" "t4" ] proposed.

(** Two offers of the trader's, for 600 and for 700, of which the farmer
    has accepted the first: 400 are left available. *)
Definition low_stock : @db float :=
  run [ CreateContractByTrader (Seed.offer 600%float UnitType.KG)
          "trader1@test.com" "contract-2" "t1";
        CreateContractByTrader (Seed.offer 700%float UnitType.KG)
          "trader1@test.com" "contract-3" "t2";
        FarmerAcceptContract (mk_AcceptContractRequest "contract-2")
          "farmer1@test.com" "t3" "t4" ] Seed.seeded.


(** Proposals for 0.5 and for 0.1, of which the first has been cancelled
    again. *)
Definition half_cancelled : @db float :=
  run [ CreateContractByFarmer (Seed.propose 0.5%float UnitType.KG)
          "farmer1@test.com" "contract-1" "t1" "t2";
        CreateContractByFarmer (Seed.propose 0.1%float UnitType.KG)
          "farmer1@test.com" "contract-2" "t3" "t4";
        CancelContract (mk_CancelContractRequest "contract-1")
          "farmer1@test.com" "t5" "t6" ] Seed.seeded.

(** The documents stored under [key]. *)
Definition contract_at (key : string) (s : @db float) : @contract float :=
  default
    (farmer_contract (Seed.propose 0%float UnitType.KG) Seed.farmer1
       Seed.soybean key "t0")
    (contracts_db s !! key).

Definition product_at (key : string) (s : @db float) : @product float :=
  default Seed.soybean (products_db s !! key).





End Instances.

Lemma farmer1_logged_in (s : @db float) :
  users_db s = Seed.users → sessions s = Seed.logins →
  logged_in s "farmer1@test.com" Seed.farmer1.
Proof. intros Hu Hs. exists "farmer-1". by rewrite Hu, Hs. Defined.

Lemma trader1_logged_in (s : @db float) :
  users_db s = Seed.users → sessions s = Seed.logins →
  logged_in s "trader1@test.com" Seed.trader1.
Proof. intros Hu Hs. exists "trader-1". by rewrite Hu, Hs. Defined.

(** An instance: with 400 left available, the farmer's acceptance of the
    offer for 700 is refused and nothing changes. *)
Lemma farmer_accept_contract_insufficient_witness :
  farmer_accept_contract (mk_AcceptContractRequest "contract-3")
    "farmer1@test.com" "t5" "t6" Instances.low_stock
  = (Raise (HTTPException 400
       (MsgQty "Insufficient available quantity. Available: "
          400%float UnitType.KG)),
     Instances.low_stock).
Proof.
  destruct (farmer_accept_contract_insufficient Instances.low_stock
              (mk_AcceptContractRequest "contract-3") "farmer1@test.com"
              "t5" "t6"
              (trader_contract (Seed.offer 700%float UnitType.KG)
                 Seed.trader1 Seed.soybean "contract-3" "t2")
              (Instances.product_at "product-1" Instances.low_stock))
    as (_ & _ & Hfarmer).
  - vm_compute. reflexivity.
  - reflexivity.
  - reflexivity.
  - vm_compute. reflexivity.
  - vm_compute. reflexivity.
  - rewrite (Hfarmer Seed.farmer1).
    + vm_compute. reflexivity.
    + apply farmer1_logged_in; vm_compute; reflexivity.
    + reflexivity.
    + reflexivity.
Defined.

(** An instance: the scenario on the seeded soybean listing. *)
Lemma producer_scenario_witness :
  ∃ c1 s1 c2 s2 c3 s3,
    create_contract_by_farmer (Seed.propose 300%float UnitType.KG)
      "farmer1@test.com" "contract-1" "t1" "t2" Seed.seeded = (Ok c1, s1)
    ∧ counters "product-1" s1 = Some (1000, 1000, 300, 0)%float
    ∧ trader_accept_contract (mk_AcceptContractRequest "contract-1")
        "trader1@test.com" "t3" "t4" s1 = (Ok c2, s2)
    ∧ counters "product-1" s2 = Some (1000, 700, 0, 300)%float
    ∧ complete_contract
        (mk_CompleteContractRequest "contract-1" CreatedBy.FARMER)
        "farmer1@test.com" "t5" "t6" s2 = (Ok c3, s3)
    ∧ counters "product-1" s3 = Some (700, 700, 0, 0)%float.
Proof.
  apply (producer_scenario Seed.seeded (Seed.propose 300%float UnitType.KG)
           "farmer1@test.com" Seed.farmer1 Seed.soybean "contract-1" "t1"
           "t2" "trader1@test.com" Seed.trader1 "t3" "t4" "farmer1@test.com"
           Seed.farmer1 CreatedBy.FARMER "t5" "t6");
    try reflexivity.
  - by apply farmer1_logged_in.
  - by apply trader1_logged_in.
  - by apply farmer1_logged_in.
  - by left.
Defined.

(** An instance: the trader accepts the farmer's proposal a second
    time. *)
Lemma accept_twice_witness :
  trader_accept_contract (mk_AcceptContractRequest "contract-1")
    "trader1@test.com" "t5" "t6" Instances.accepted
  = (Raise (HTTPException 400 (Msg "Contract is not pending")),
     Instances.accepted).
Proof.
  destruct (accept_twice Instances.proposed
              (mk_AcceptContractRequest "contract-1") "trader1@test.com"
              "t3" "t4"
              (Instances.contract_at "contract-1" Instances.accepted)
              Instances.accepted)
    as (contract & product & Hc & _ & _ & Hsecond).
  - left. vm_compute. reflexivity.
  - destruct (Hsecond "trader1@test.com" "t5" "t6") as (_ & _ & H400).
    assert (Hcb : created_by contract = CreatedBy.FARMER).
    { vm_compute in Hc. by injection Hc as <-. }
    specialize (H400 Seed.trader1). rewrite Hcb in H400. apply H400.
    + apply trader1_logged_in; vm_compute; reflexivity.
    + reflexivity.
Defined.

(** An instance: requests of every kind on an ACTIVE contract. *)
Lemma status_never_goes_back_witness :
  ∃ c', contracts_db
          (run [ CancelContract (mk_CancelContractRequest "contract-1")
                   "farmer1@test.com" "t5" "t6";
                 CreateContractByFarmer
                   (Seed.propose 100%float UnitType.KG) "farmer1@test.com"
                   "contract-2" "t7" "t8";
                 RejectContract
                   (mk_RejectContractRequest "contract-1" None)
                   "trader1@test.com" "t9" "t10";
                 CompleteContract
                   (mk_CompleteContractRequest "contract-1" CreatedBy.TRADER)
                   "trader1@test.com" "t11" "t12";
                 CancelContract (mk_CancelContractRequest "contract-1")
                   "farmer1@test.com" "t13" "t14" ]
             Instances.accepted) !! "contract-1" = Some c'
        ∧ (status c' = ContractStatus.ACTIVE
           ∨ status c' = ContractStatus.COMPLETED).
Proof.
  destruct (status_never_goes_back
              [ CancelContract (mk_CancelContractRequest "contract-1")
                  "farmer1@test.com" "t5" "t6";
                CreateContractByFarmer
                  (Seed.propose 100%float UnitType.KG) "farmer1@test.com"
                  "contract-2" "t7" "t8";
                RejectContract
                  (mk_RejectContractRequest "contract-1" None)
                  "trader1@test.com" "t9" "t10";
                CompleteContract
                  (mk_CompleteContractRequest "contract-1" CreatedBy.TRADER)
                  "trader1@test.com" "t11" "t12";
                CancelContract (mk_CancelContractRequest "contract-1")
                  "farmer1@test.com" "t13" "t14" ]
              Instances.accepted "contract-1"
              (Instances.contract_at "contract-1" Instances.accepted))
    as (c' & Hc' & Hactive & _).
  - vm_compute. done.
  - vm_compute. reflexivity.
  - exists c'. split; [exact Hc'|]. apply Hactive. reflexivity.
Defined.





(** An instance: a proposal in tonnes on a listing in kilograms. *)
Lemma unit_is_never_checked_witness :
  ∃ c s1 c2 s2,
    create_contract_by_farmer (Seed.propose 300%float UnitType.TONNE)
      "farmer1@test.com" "contract-1" "t1" "t2" Seed.seeded = (Ok c, s1)
    ∧ c_unit c = UnitType.TONNE
    ∧ p_unit Seed.soybean = UnitType.KG
    ∧ trader_accept_contract (mk_AcceptContractRequest "contract-1")
        "trader1@test.com" "t3" "t4" s1 = (Ok c2, s2)
    ∧ counters "product-1" s2 = Some (1000, 700, 0, 300)%float.
Proof.
  destruct (unit_is_never_checked Seed.seeded "product-1" Seed.soybean)
    as [Hfarmer _]; [reflexivity|].
  destruct (Hfarmer (Seed.propose 300%float UnitType.TONNE)
              "farmer1@test.com" "contract-1" "t1" "t2" Seed.farmer1
              "trader1@test.com" Seed.trader1 "t3" "t4")
    as (c & s1 & c2 & s2 & Hcreate & Hunit & _ & _ & Haccept & Hcounters);
    try reflexivity.
  - discriminate.
  - by apply farmer1_logged_in.
  - by apply trader1_logged_in.
  - exists c, s1, c2, s2. split_and!; done.
Defined.

(** An instance: the farmer cancels the pending proposal for 300. *)
Lemma release_is_unchecked_witness :
  ∃ c' s',
    cancel_contract (mk_CancelContractRequest "contract-1")
      "farmer1@test.com" "t3" "t4" Instances.proposed = (Ok c', s')
    ∧ counters "product-1" s' = Some (1000, 1000, 0, 0)%float.
Proof.
  destruct (release_is_unchecked Instances.proposed "contract-1"
              (farmer_contract (Seed.propose 300%float UnitType.KG)
                 Seed.farmer1 Seed.soybean "contract-1" "t1")
              (Instances.product_at "product-1" Instances.proposed))
    as [_ Hcancel].
  - vm_compute. reflexivity.
  - reflexivity.
  - reflexivity.
  - vm_compute. reflexivity.
  - destruct (Hcancel "farmer1@test.com" Seed.farmer1 "t3" "t4")
      as (c' & s' & Hrun & Hcounters).
    + apply farmer1_logged_in; vm_compute; reflexivity.
    + reflexivity.
    + reflexivity.
    + exists c', s'. split; [exact Hrun|].
      etrans; [exact Hcounters|]. vm_compute. reflexivity.
Defined.

(** C6, refuted as stated.  In a reachable database the farmer's pending
    proposal for 0.1 is backed by [reserved_qty = 0.09999999999999998]
    (0.5 and 0.1 were reserved, 0.5 released): the decrement by 0.1 would
    make the counter negative.  Cancelling, and likewise rejecting, the
    proposal succeeds and stores the negative [reserved_qty]. *)
Lemma release_is_unchecked_counterexample :
  reachable Instances.half_cancelled
  ∧ (∃ c, contracts_db Instances.half_cancelled !! "contract-2" = Some c
          ∧ status c = ContractStatus.PENDING
          ∧ created_by c = CreatedBy.FARMER
          ∧ qty c = 0.1%float)
  ∧ counters "product-1" Instances.half_cancelled
    = Some (1000, 1000, 0.09999999999999998, 0)%float
  ∧ num_gt 0.1%float 0.09999999999999998%float = true
  ∧ (∃ c' s',
       cancel_contract (mk_CancelContractRequest "contract-2")
         "farmer1@test.com" "t7" "t8" Instances.half_cancelled = (Ok c', s')
       ∧ counters "product-1" s'
         = Some (1000, 1000, -2.7755575615628914e-17, 0)%float)
  ∧ (∃ c' s',
       reject_contract (mk_RejectContractRequest "contract-2" None)
         "trader1@test.com" "t7" "t8" Instances.half_cancelled = (Ok c', s')
       ∧ counters "product-1" s'
         = Some (1000, 1000, -2.7755575615628914e-17, 0)%float)
  ∧ num_gt 0%float (-2.7755575615628914e-17)%float = true.
Proof.
  split_and!.
  - eexists Seed.seeded, _. split_and!; [apply seeded_initial| |reflexivity].
    vm_compute. done.
  - eexists. split_and!; [vm_compute; reflexivity | reflexivity..].
  - vm_compute. reflexivity.
  - reflexivity.
  - eexists _, _. split; vm_compute; reflexivity.
  - eexists _, _. split; vm_compute; reflexivity.
  - reflexivity.
Qed.



(** * What a request can do to the database *)

Section Transitions.
Context {N : Type} `{PyNum N}.

#[local] Abbreviation db := (@db N).
#[local] Abbreviation product := (@product N).
#[local] Abbreviation contract := (@contract N).
#[local] Abbreviation api_call := (@api_call N).

Implicit Types (s : db) (email : string) (now : timestamp).

(** The effect of one request that changed the database: every
    constructor is one path through one handler, with the tests the path
    passed and the database it leaves.  The last four are the paths that
    end in the [KeyError] of [products_db[contract["product_id"]]] after
    the contract has been assigned to. *)
Inductive transition (s : db) : db → Prop :=
  | tr_auth users sess :
      transition s (mk_db users (products_db s) (contracts_db s) sess)
  | tr_list_product request email user product_id now now' :
      logged_in s email user → u_type user = UserType.FARMER →
      num_gt (lp_qty request) num_zero = true →
      products_db s !! product_id = None →
      transition s
        (mk_db (users_db s)
           (<[product_id :=
                mk_product product_id (u_id user) (lp_type request)
                  (lp_qty request) (lp_qty request) num_zero num_zero
                  (lp_unit request) true now now']> (products_db s))
           (contracts_db s) (sessions s))
  | tr_create_by_farmer request email user p contract_id now now' :
      logged_in s email user → u_type user = UserType.FARMER →
      num_gt (cf_price_per_unit request) num_zero = true →
      num_gt (cf_qty request) num_zero = true →
      products_db s !! cf_product_id request = Some p →
      p_farmer_id p = u_id user →
      num_gt (cf_qty request)
        (num_sub (available_qty p) (reserved_qty p)) = false →
      contracts_db s !! contract_id = None →
      transition s
        (mk_db (users_db s)
           (<[cf_product_id request :=
                set_p_updated_at now'
                  (set_reserved_qty
                     (num_add (reserved_qty p) (cf_qty request)) p)]>
              (products_db s))
           (<[contract_id := farmer_contract request user p contract_id now]>
              (contracts_db s))
           (sessions s))
  | tr_create_by_trader request email user p contract_id now :
      logged_in s email user → u_type user = UserType.TRADER →
      num_gt (ct_price_per_unit request) num_zero = true →
      num_gt (ct_qty request) num_zero = true →
      products_db s !! ct_product_id request = Some p →
      ct_farmer_id request = p_farmer_id p →
      num_gt (ct_qty request) (available_qty p) = false →
      contracts_db s !! contract_id = None →
      transition s
        (mk_db (users_db s) (products_db s)
           (<[contract_id := trader_contract request user p contract_id now]>
              (contracts_db s))
           (sessions s))
  | tr_trader_accept key email user c p now now' :
      logged_in s email user → u_type user = UserType.TRADER →
      contracts_db s !! key = Some c →
      created_by c = CreatedBy.FARMER →
      status c = ContractStatus.PENDING →
      products_db s !! c_product_id c = Some p →
      transition s
        (mk_db (users_db s)
           (<[c_product_id c :=
                set_p_updated_at now'
                  (set_available_qty (num_sub (available_qty p) (qty c))
                     (set_committed_qty (num_add (committed_qty p) (qty c))
                        (set_reserved_qty
                           (num_sub (reserved_qty p) (qty c)) p)))]>
              (products_db s))
           (<[key := accepted_by_trader user now c]> (contracts_db s))
           (sessions s))
  | tr_farmer_accept key email user c p now now' :
      logged_in s email user → u_type user = UserType.FARMER →
      contracts_db s !! key = Some c →
      created_by c = CreatedBy.TRADER →
      status c = ContractStatus.PENDING →
      c_farmer_id c = u_id user →
      products_db s !! c_product_id c = Some p →
      num_gt (qty c) (available_qty p) = false →
      transition s
        (mk_db (users_db s)
           (<[c_product_id c :=
                set_p_updated_at now'
                  (set_committed_qty (num_add (committed_qty p) (qty c))
                     (set_available_qty
                        (num_sub (available_qty p) (qty c)) p))]>
              (products_db s))
           (<[key := accepted_by_farmer user now c]> (contracts_db s))
           (sessions s))
  | tr_reject_farmer_created key reason email user c p now now' :
      logged_in s email user → u_type user = UserType.TRADER →
      contracts_db s !! key = Some c →
      status c = ContractStatus.PENDING →
      created_by c = CreatedBy.FARMER →
      products_db s !! c_product_id c = Some p →
      transition s
        (mk_db (users_db s)
           (<[c_product_id c := released now' c p]> (products_db s))
           (<[key := rejected user now reason c]> (contracts_db s))
           (sessions s))
  | tr_reject_trader_created key reason email user c now :
      logged_in s email user → u_type user = UserType.FARMER →
      contracts_db s !! key = Some c →
      status c = ContractStatus.PENDING →
      created_by c = CreatedBy.TRADER →
      c_farmer_id c = u_id user →
      transition s
        (mk_db (users_db s) (products_db s)
           (<[key := rejected user now reason c]> (contracts_db s))
           (sessions s))
  | tr_cancel_farmer_created key email user c p now now' :
      logged_in s email user → u_type user = UserType.FARMER →
      contracts_db s !! key = Some c →
      status c = ContractStatus.PENDING →
      created_by c = CreatedBy.FARMER →
      c_farmer_id c = u_id user →
      products_db s !! c_product_id c = Some p →
      transition s
        (mk_db (users_db s)
           (<[c_product_id c := released now' c p]> (products_db s))
           (<[key := cancelled now c]> (contracts_db s))
           (sessions s))
  | tr_cancel_trader_created key email user c now :
      logged_in s email user → u_type user = UserType.TRADER →
      contracts_db s !! key = Some c →
      status c = ContractStatus.PENDING →
      created_by c = CreatedBy.TRADER →
      c_trader_id c = Some (u_id user) →
      transition s
        (mk_db (users_db s) (products_db s)
           (<[key := cancelled now c]> (contracts_db s))
           (sessions s))
  | tr_complete key role email user c p now now' :
      logged_in s email user →
      contracts_db s !! key = Some c →
      status c = ContractStatus.ACTIVE →
      u_id user = c_farmer_id c ∨ c_trader_id c = Some (u_id user) →
      products_db s !! c_product_id c = Some p →
      transition s
        (mk_db (users_db s)
           (<[c_product_id c :=
                set_p_updated_at now'
                  (set_total_qty (num_sub (total_qty p) (qty c))
                     (set_committed_qty
                        (num_sub (committed_qty p) (qty c)) p))]>
              (products_db s))
           (<[key := completed now role c]> (contracts_db s))
           (sessions s))
  | tr_trader_accept_no_listing key email user c now :
      logged_in s email user → u_type user = UserType.TRADER →
      contracts_db s !! key = Some c →
      created_by c = CreatedBy.FARMER →
      status c = ContractStatus.PENDING →
      products_db s !! c_product_id c = None →
      transition s
        (mk_db (users_db s) (products_db s)
           (<[key := accepted_by_trader user now c]> (contracts_db s))
           (sessions s))
  | tr_reject_no_listing key reason email user c now :
      logged_in s email user → u_type user = UserType.TRADER →
      contracts_db s !! key = Some c →
      status c = ContractStatus.PENDING →
      created_by c = CreatedBy.FARMER →
      products_db s !! c_product_id c = None →
      transition s
        (mk_db (users_db s) (products_db s)
           (<[key := rejected user now reason c]> (contracts_db s))
           (sessions s))
  | tr_cancel_no_listing key email user c now :
      logged_in s email user → u_type user = UserType.FARMER →
      contracts_db s !! key = Some c →
      status c = ContractStatus.PENDING →
      created_by c = CreatedBy.FARMER →
      c_farmer_id c = u_id user →
      products_db s !! c_product_id c = None →
      transition s
        (mk_db (users_db s) (products_db s)
           (<[key := cancelled now c]> (contracts_db s))
           (sessions s))
  | tr_complete_no_listing key role email user c now :
      logged_in s email user →
      contracts_db s !! key = Some c →
      status c = ContractStatus.ACTIVE →
      u_id user = c_farmer_id c ∨ c_trader_id c = Some (u_id user) →
      products_db s !! c_product_id c = None →
      transition s
        (mk_db (users_db s) (products_db s)
           (<[key := completed now role c]> (contracts_db s))
           (sessions s)).

Lemma serve_transition (call : api_call) s :
  fresh_id call s → serve call s = s ∨ transition s (serve call s).
Proof.
  intros Hfresh.
  destruct call; simpl in *; munfold; mcases; rewrite ?insert_insert_eq.
  all: try (left; by destruct s).
  all: try (left; reflexivity).
  all: right.
  all: repeat match goal with
         | Hn : negb _ = false |- _ => apply negb_false_iff in Hn
         end.
  all: try match goal with
         | Hs : sessions ?d !! ?e = Some ?a, Hu : users_db ?d !! ?a = Some ?u
           |- _ =>
             assert (logged_in d e u) by (exists a; by split)
         end.
  all: try match goal with
         | Hin : _ ∈ [_; _] |- _ =>
             apply elem_of_cons in Hin as [Hin | Hin%list_elem_of_singleton];
             [ apply (inj Some) in Hin | symmetry in Hin ]
         end.
  all: try match goal with
         | Hcb : created_by ?c ≠ CreatedBy.FARMER |- _ =>
             assert (created_by c = CreatedBy.TRADER)
               by (by destruct (created_by c))
         end.
  all: first
         [ apply tr_auth
         | solve [eapply tr_list_product; eauto]
         | solve [eapply tr_create_by_farmer; eauto]
         | solve [eapply tr_create_by_trader; eauto]
         | solve [eapply tr_trader_accept; eauto]
         | solve [eapply tr_farmer_accept; eauto]
         | solve [eapply tr_reject_farmer_created; eauto]
         | solve [eapply tr_reject_trader_created; eauto]
         | solve [eapply tr_cancel_farmer_created; eauto]
         | solve [eapply tr_cancel_trader_created; eauto]
         | solve [eapply tr_complete; eauto]
         | solve [eapply tr_trader_accept_no_listing; eauto]
         | solve [eapply tr_reject_no_listing; eauto]
         | solve [eapply tr_cancel_no_listing; eauto]
         | solve [eapply tr_complete_no_listing; eauto]
         ].
Qed.

End Transitions.

(** ** Invariants of runs *)

Section Invariants.
Context {N : Type} `{PyNum N}.

#[local] Abbreviation db := (@db N).
#[local] Abbreviation product := (@product N).
#[local] Abbreviation contract := (@contract N).
#[local] Abbreviation api_call := (@api_call N).

Implicit Types (s : db) (email : string) (now : timestamp).

(** A property of databases that every transition keeps holds along
    every run. *)
Lemma run_invariant (P : db → Prop) :
  (∀ s s', P s → transition s s' → P s') →
  ∀ (calls : list api_call) s, fresh_ids calls s → P s → P (run calls s).
Proof.
  intros Hstep calls. induction calls as [| call calls IH]; intros s Hfresh HP.
  - done.
  - destruct Hfresh as [Hcall Hcalls]. simpl. apply IH; [done|].
    destruct (serve_transition call s Hcall) as [-> | Htr]; [done|].
    by apply (Hstep s).
Qed.

Lemma reachable_invariant (P : db → Prop) :
  (∀ s, initial s → P s) →
  (∀ s s', P s → transition s s' → P s') →
  ∀ s, reachable s → P s.
Proof.
  intros Hinit Hstep s (s0 & calls & Hs0 & Hfresh & ->).
  apply run_invariant; [done | done | by apply Hinit].
Qed.

(** A reflexive and transitive relation that contains every transition
    relates a database to every database a run leads to. *)
Lemma run_preorder (R : db → db → Prop) :
  (∀ s, R s s) → (∀ s1 s2 s3, R s1 s2 → R s2 s3 → R s1 s3) →
  (∀ s s', transition s s' → R s s') →
  ∀ (calls : list api_call) s, fresh_ids calls s → R s (run calls s).
Proof.
  intros Hrefl Htrans Hstep calls.
  induction calls as [| call calls IH]; intros s Hfresh; [apply Hrefl|].
  destruct Hfresh as [Hcall Hcalls]. simpl.
  apply (Htrans _ (serve call s)); [|by apply IH].
  destruct (serve_transition call s Hcall) as [-> | Htr];
    [apply Hrefl | by apply Hstep].
Qed.

(** *** Referential integrity *)

(** Every contract is stored under its own id and points at a listing
    that exists, belongs to the contract's farmer and has the contract's
    product type. *)
Definition linked s : Prop :=
  ∀ k (c : contract), contracts_db s !! k = Some c →
    c_id c = k
    ∧ ∃ p, products_db s !! c_product_id c = Some p
           ∧ p_farmer_id p = c_farmer_id c
           ∧ p_type p = c_product_type c.

Lemma transition_linked s s' : linked s → transition s s' → linked s'.
Proof.
  intros Hl Htr k c'. destruct Htr; simpl.
  all: rewrite ?lookup_insert; repeat case_decide; simplify_eq/=.
  all: try (intros [= <-]; simpl).
  all: try (intros Hk; destruct (Hl _ _ Hk) as (Hid & p0 & Hp0 & Hf0 & Ht0)).
  all: try match goal with
         | Hc : contracts_db _ !! _ = Some ?c |- _ =>
             destruct (Hl _ _ Hc) as (Hidc & pc & Hpc & Hfc & Htc)
         end.
  all: split; [done|].
  all: rewrite ?lookup_insert; repeat case_decide; simplify_eq/=; eauto.
  all: eexists; (split; [reflexivity|]); simpl; split; congruence.
Qed.

(** X1. Referential integrity.  In every reachable database each
    contract is stored under its own id, and the listing it names
    exists, belongs to the contract's farmer and has the contract's
    product type. *)
Theorem reachable_linked s : reachable s → linked s.
Proof.
  apply reachable_invariant.
  - intros s0 [Hempty _] k c. rewrite Hempty, lookup_empty. done.
  - apply transition_linked.
Qed.

(** *** What never changes *)

(** The terms of a contract: everything but its status, its audit
    fields and, for a producer-initiated one, the trader. *)
Definition same_terms (c c' : contract) : Prop :=
  c_id c' = c_id c ∧ c_farmer_id c' = c_farmer_id c
  ∧ c_product_id c' = c_product_id c
  ∧ c_product_type c' = c_product_type c
  ∧ price_per_unit c' = price_per_unit c ∧ qty c' = qty c
  ∧ c_unit c' = c_unit c ∧ total_value c' = total_value c
  ∧ created_by c' = created_by c ∧ c_created_at c' = c_created_at c
  ∧ expected_delivery_date c' = expected_delivery_date c
  ∧ notes c' = notes c
  ∧ (created_by c = CreatedBy.TRADER → c_trader_id c' = c_trader_id c).

(** The identity of a listing: everything but its counters and
    [updated_at]. *)
Definition same_listing (p p' : product) : Prop :=
  p_id p' = p_id p ∧ p_farmer_id p' = p_farmer_id p ∧ p_type p' = p_type p
  ∧ p_unit p' = p_unit p ∧ is_active p' = is_active p
  ∧ p_created_at p' = p_created_at p.

Definition keeps_documents s s' : Prop :=
  (∀ k (c : contract), contracts_db s !! k = Some c →
     ∃ c', contracts_db s' !! k = Some c' ∧ same_terms c c')
  ∧ (∀ k (p : product), products_db s !! k = Some p →
       ∃ p', products_db s' !! k = Some p' ∧ same_listing p p').

Lemma same_terms_refl (c : contract) : same_terms c c.
Proof. by repeat split. Qed.

Lemma same_listing_refl (p : product) : same_listing p p.
Proof. by repeat split. Qed.

Lemma same_terms_trans (c1 c2 c3 : contract) :
  same_terms c1 c2 → same_terms c2 c3 → same_terms c1 c3.
Proof.
  unfold same_terms.
  intros (? & ? & ? & ? & ? & ? & ? & ? & Hcb12 & ? & ? & ? & Ht12)
         (? & ? & ? & ? & ? & ? & ? & ? & Hcb23 & ? & ? & ? & Ht23).
  split_and!; try congruence.
  intros Hcb. rewrite Ht23, Ht12; [done | done | congruence].
Qed.

Lemma same_listing_trans (p1 p2 p3 : product) :
  same_listing p1 p2 → same_listing p2 p3 → same_listing p1 p3.
Proof. unfold same_listing. intros. destruct_and!. split_and!; congruence. Qed.

Lemma transition_keeps_documents s s' :
  transition s s' → keeps_documents s s'.
Proof.
  intros Htr. split.
  - intros k c0 Hk. destruct Htr; simpl.
    all: rewrite ?lookup_insert; repeat case_decide; simplify_eq/=.
    all: try (eexists; split; [done | apply same_terms_refl]).
    all: eexists; (split; [reflexivity|]).
    all: unfold same_terms; simpl; split_and!; try done; congruence.
  - intros k p0 Hk. destruct Htr; simpl.
    all: rewrite ?lookup_insert; repeat case_decide; simplify_eq/=.
    all: try (eexists; split; [done | apply same_listing_refl]).
    all: eexists; (split; [reflexivity|]).
    all: unfold same_listing; simpl; split_and!; done.
Qed.

Lemma run_keeps_documents (calls : list api_call) s :
  fresh_ids calls s → keeps_documents s (run calls s).
Proof.
  apply (run_preorder keeps_documents).
  - intros s0. split; intros k d Hk; exists d; (split; [done|]).
    + apply same_terms_refl.
    + apply same_listing_refl.
  - intros s1 s2 s3 [Hc12 Hp12] [Hc23 Hp23]. split.
    + intros k c1 Hk. destruct (Hc12 k c1 Hk) as (c2 & Hk2 & H12).
      destruct (Hc23 k c2 Hk2) as (c3 & Hk3 & H23).
      exists c3. split; [done|]. by apply (same_terms_trans c1 c2).
    + intros k p1 Hk. destruct (Hp12 k p1 Hk) as (p2 & Hk2 & H12).
      destruct (Hp23 k p2 Hk2) as (p3 & Hk3 & H23).
      exists p3. split; [done|]. by apply (same_listing_trans p1 p2).
  - apply transition_keeps_documents.
Qed.

(** X2. The terms of a contract are fixed at creation.  Along any run
    a contract is never removed, and its id, farmer, listing, product
    type, price, quantity, unit, value, creator, creation time, delivery
    date and notes, and the trader of a trader-created contract, stay
    what they were. *)
Theorem contract_terms_never_change (calls : list api_call) s k
    (c : contract) :
  fresh_ids calls s →
  contracts_db s !! k = Some c →
  ∃ c', contracts_db (run calls s) !! k = Some c' ∧ same_terms c c'.
Proof. intros Hfresh Hk. by apply (run_keeps_documents calls s Hfresh). Qed.


(** *** The audit trail *)

(** What the audit fields of a contract say, by status. *)
Definition audit_ok (c : contract) : Prop :=
  (created_by c = CreatedBy.TRADER → is_Some (c_trader_id c))
  ∧ match status c with
    | ContractStatus.PENDING =>
        (created_by c = CreatedBy.FARMER → c_trader_id c = None)
        ∧ accepted_at c = None ∧ accepted_by c = None
        ∧ completed_at c = None ∧ completed_by c = None
        ∧ rejected_at c = None ∧ rejected_by c = None
        ∧ cancelled_at c = None
    | ContractStatus.ACTIVE =>
        is_Some (accepted_at c) ∧ is_Some (c_trader_id c)
        ∧ accepted_by c =
            match created_by c with
            | CreatedBy.FARMER => c_trader_id c
            | CreatedBy.TRADER => Some (c_farmer_id c)
            end
        ∧ completed_at c = None ∧ completed_by c = None
        ∧ rejected_at c = None ∧ cancelled_at c = None
    | ContractStatus.COMPLETED =>
        is_Some (accepted_at c) ∧ is_Some (c_trader_id c)
        ∧ accepted_by c =
            match created_by c with
            | CreatedBy.FARMER => c_trader_id c
            | CreatedBy.TRADER => Some (c_farmer_id c)
            end
        ∧ is_Some (completed_at c)
        ∧ (completed_by c = Some "farmer" ∨ completed_by c = Some "trader")
        ∧ rejected_at c = None ∧ cancelled_at c = None
    | ContractStatus.REJECTED =>
        is_Some (rejected_at c) ∧ is_Some (rejected_by c)
        ∧ accepted_at c = None ∧ accepted_by c = None
        ∧ completed_at c = None ∧ cancelled_at c = None
    | ContractStatus.CANCELLED =>
        is_Some (cancelled_at c)
        ∧ accepted_at c = None ∧ accepted_by c = None
        ∧ completed_at c = None ∧ rejected_at c = None
    end.

Definition audited s : Prop :=
  ∀ k (c : contract), contracts_db s !! k = Some c → audit_ok c.

Lemma transition_audited s s' : audited s → transition s s' → audited s'.
Proof.
  intros Ha Htr k c'. destruct Htr; simpl.
  all: rewrite ?lookup_insert; repeat case_decide; simplify_eq/=.
  all: try apply Ha.
  all: intros [= <-].
  all: try match goal with
         | Hc : contracts_db _ !! _ = Some ?c |- _ =>
             let Hac := fresh "Hac" in
             pose proof (Ha _ _ Hc) as Hac;
             unfold audit_ok in Hac;
             match goal with
             | Hst : status c = _ |- _ => rewrite Hst in Hac
             end;
             destruct Hac as [Htid Hac]; destruct_and!
         end.
  all: unfold audit_ok; simpl.
  all: repeat match goal with Heq : _ = _ |- _ => rewrite Heq end.
  all: split_and!; try done; eauto.
  all: destruct role; [by left | by right].
Qed.

(** X4. The audit trail of every contract of a reachable database is
    consistent with its status. *)
Theorem reachable_audited s k (c : contract) :
  reachable s → contracts_db s !! k = Some c → audit_ok c.
Proof.
  intros Hreach. revert k c. change (audited s). revert s Hreach.
  apply reachable_invariant.
  - intros s0 [Hempty _] k c. rewrite Hempty, lookup_empty. done.
  - apply transition_audited.
Qed.

End Invariants.

(** * Refused requests *)

Section Refusals.
Context {N : Type} `{PyNum N}.

#[local] Abbreviation db := (@db N).
#[local] Abbreviation product := (@product N).
#[local] Abbreviation contract := (@contract N).

Implicit Types (s : db) (email : string) (now : timestamp).

(** X5. Without a session, or with a session whose user is gone, every
    endpoint raises the 401 of [get_current_user_email] and changes
    nothing. *)
Theorem unauthenticated_requests_are_refused s email e s' :
  get_current_user_email email s = (Raise e, s') →
  s' = s
  ∧ (e = HTTPException 401 (Msg "Not authenticated")
       ∧ sessions s !! email = None
     ∨ e = HTTPException 401 (Msg "User not found")
       ∧ ∃ user_id, sessions s !! email = Some user_id
                    ∧ users_db s !! user_id = None)
  ∧ (∀ request product_id now now',
       list_product request email product_id now now' s = (Raise e, s))
  ∧ (∀ request contract_id now now',
       create_contract_by_farmer request email contract_id now now' s
         = (Raise e, s))
  ∧ (∀ request contract_id now,
       create_contract_by_trader request email contract_id now s
         = (Raise e, s))
  ∧ (∀ request now now',
       trader_accept_contract request email now now' s = (Raise e, s))
  ∧ (∀ request now now',
       farmer_accept_contract request email now now' s = (Raise e, s))
  ∧ (∀ request now now',
       reject_contract request email now now' s = (Raise e, s))
  ∧ (∀ request now now',
       cancel_contract request email now now' s = (Raise e, s))
  ∧ (∀ request now now',
       complete_contract request email now now' s = (Raise e, s)).
Proof.
  intros Hauth.
  assert (Hcases : s' = s
    ∧ (e = HTTPException 401 (Msg "Not authenticated")
         ∧ sessions s !! email = None
       ∨ e = HTTPException 401 (Msg "User not found")
         ∧ ∃ user_id, sessions s !! email = Some user_id
                      ∧ users_db s !! user_id = None)).
  { munfold. mcases; split; eauto. }
  destruct Hcases as [-> Hcases]. split; [done|]. split; [done|].
  split_and!; intros; munfold;
    destruct Hcases as [[-> Hs] | [-> (user_id & Hs & Hu)]];
    rewrite Hs; simpl; rewrite ?Hu; done.
Qed.

(** The status codes the handlers raise. *)
Definition client_error (e : exn N) : Prop :=
  ∃ code d, e = HTTPException code d ∧ code ∈ [400; 401; 403; 404].

Lemma list_product_refused s request email product_id now now' e s' :
  list_product request email product_id now now' s = (Raise e, s') →
  s' = s ∧ client_error e.
Proof.
  intros Hrun. munfold. mcases.
  all: split; [done|]; eexists _, _; split; [done|]; set_solver.
Qed.

Lemma create_contract_by_farmer_refused s request email contract_id now now'
    e s' :
  create_contract_by_farmer request email contract_id now now' s
    = (Raise e, s') →
  s' = s ∧ client_error e.
Proof.
  intros Hrun. munfold. mcases.
  all: split; [done|]; eexists _, _; split; [done|]; set_solver.
Qed.

Lemma create_contract_by_trader_refused s request email contract_id now
    e s' :
  create_contract_by_trader request email contract_id now s = (Raise e, s') →
  s' = s ∧ client_error e.
Proof.
  intros Hrun. munfold. mcases.
  all: split; [done|]; eexists _, _; split; [done|]; set_solver.
Qed.

Lemma trader_accept_contract_refused s request email now now' e s' :
  linked s →
  trader_accept_contract request email now now' s = (Raise e, s') →
  s' = s ∧ client_error e.
Proof.
  intros Hl Hrun. munfold. mcases.
  all: try (split; [done|]; eexists _, _; split; [done|]; set_solver).
  all: match goal with
       | Hc : contracts_db _ !! _ = Some ?c |- _ =>
           destruct (Hl _ _ Hc) as (_ & p & Hp & _); congruence
       end.
Qed.

Lemma farmer_accept_contract_refused s request email now now' e s' :
  linked s →
  farmer_accept_contract request email now now' s = (Raise e, s') →
  s' = s ∧ client_error e.
Proof.
  intros Hl Hrun. munfold. mcases.
  all: try (split; [done|]; eexists _, _; split; [done|]; set_solver).
  all: match goal with
       | Hc : contracts_db _ !! _ = Some ?c |- _ =>
           destruct (Hl _ _ Hc) as (_ & p & Hp & _); congruence
       end.
Qed.

Lemma reject_contract_refused s request email now now' e s' :
  linked s →
  reject_contract request email now now' s = (Raise e, s') →
  s' = s ∧ client_error e.
Proof.
  intros Hl Hrun. munfold. mcases.
  all: try (split; [done|]; eexists _, _; split; [done|]; set_solver).
  all: match goal with
       | Hc : contracts_db _ !! _ = Some ?c |- _ =>
           destruct (Hl _ _ Hc) as (_ & p & Hp & _); congruence
       end.
Qed.

Lemma cancel_contract_refused s request email now now' e s' :
  linked s →
  cancel_contract request email now now' s = (Raise e, s') →
  s' = s ∧ client_error e.
Proof.
  intros Hl Hrun. munfold. mcases.
  all: try (split; [done|]; eexists _, _; split; [done|]; set_solver).
  all: match goal with
       | Hc : contracts_db _ !! _ = Some ?c |- _ =>
           destruct (Hl _ _ Hc) as (_ & p & Hp & _); congruence
       end.
Qed.

Lemma complete_contract_refused s request email now now' e s' :
  linked s →
  complete_contract request email now now' s = (Raise e, s') →
  s' = s ∧ client_error e.
Proof.
  intros Hl Hrun. munfold. mcases.
  all: try (split; [done|]; eexists _, _; split; [done|]; set_solver).
  all: match goal with
       | Hc : contracts_db _ !! _ = Some ?c |- _ =>
           destruct (Hl _ _ Hc) as (_ & p & Hp & _); congruence
       end.
Qed.

(** X6. In a database with referential integrity, hence in every
    reachable one, a request that raises has changed nothing, and what
    it raises is an [HTTPException] with status 400, 401, 403 or 404,
    never a [KeyError]. *)
Theorem refused_requests_change_nothing s e s' :
  linked s →
  (∀ request email product_id now now',
     list_product request email product_id now now' s = (Raise e, s') →
     s' = s ∧ client_error e)
  ∧ (∀ request email contract_id now now',
       create_contract_by_farmer request email contract_id now now' s
         = (Raise e, s') →
       s' = s ∧ client_error e)
  ∧ (∀ request email contract_id now,
       create_contract_by_trader request email contract_id now s
         = (Raise e, s') →
       s' = s ∧ client_error e)
  ∧ (∀ request email now now',
       trader_accept_contract request email now now' s = (Raise e, s') →
       s' = s ∧ client_error e)
  ∧ (∀ request email now now',
       farmer_accept_contract request email now now' s = (Raise e, s') →
       s' = s ∧ client_error e)
  ∧ (∀ request email now now',
       reject_contract request email now now' s = (Raise e, s') →
       s' = s ∧ client_error e)
  ∧ (∀ request email now now',
       cancel_contract request email now now' s = (Raise e, s') →
       s' = s ∧ client_error e)
  ∧ (∀ request email now now',
       complete_contract request email now now' s = (Raise e, s') →
       s' = s ∧ client_error e).
Proof.
  intros Hl. split_and!; intros.
  - by eapply list_product_refused.
  - by eapply create_contract_by_farmer_refused.
  - by eapply create_contract_by_trader_refused.
  - by eapply trader_accept_contract_refused.
  - by eapply farmer_accept_contract_refused.
  - by eapply reject_contract_refused.
  - by eapply cancel_contract_refused.
  - by eapply complete_contract_refused.
Qed.

(** X7. A contract whose listing is missing.  [farmer_accept_contract]
    subscripts [products_db] before it assigns anything and raises the
    [KeyError] with the database untouched.  The other four transitions
    assign to the contract first: they raise the same [KeyError], but the
    contract is already stored ACTIVE, REJECTED, CANCELLED or COMPLETED. *)
Theorem missing_listing_leaves_half_an_update s key (c : contract) :
  contracts_db s !! key = Some c →
  products_db s !! c_product_id c = None →
  (∀ email user now now',
     logged_in s email user → u_type user = UserType.FARMER →
     created_by c = CreatedBy.TRADER →
     status c = ContractStatus.PENDING → c_farmer_id c = u_id user →
     farmer_accept_contract (mk_AcceptContractRequest key) email now now' s
       = (Raise (KeyError (c_product_id c)), s))
  ∧ (∀ email user now now',
     logged_in s email user → u_type user = UserType.TRADER →
     created_by c = CreatedBy.FARMER →
     status c = ContractStatus.PENDING →
     trader_accept_contract (mk_AcceptContractRequest key) email now now' s
       = (Raise (KeyError (c_product_id c)),
          set_contracts_db
            (<[key := accepted_by_trader user now c]> (contracts_db s)) s))
  ∧ (∀ email user reason now now',
     logged_in s email user → u_type user = UserType.TRADER →
     created_by c = CreatedBy.FARMER →
     status c = ContractStatus.PENDING →
     reject_contract (mk_RejectContractRequest key reason) email now now' s
       = (Raise (KeyError (c_product_id c)),
          set_contracts_db
            (<[key := rejected user now reason c]> (contracts_db s)) s))
  ∧ (∀ email user now now',
     logged_in s email user → u_type user = UserType.FARMER →
     created_by c = CreatedBy.FARMER →
     status c = ContractStatus.PENDING → c_farmer_id c = u_id user →
     cancel_contract (mk_CancelContractRequest key) email now now' s
       = (Raise (KeyError (c_product_id c)),
          set_contracts_db (<[key := cancelled now c]> (contracts_db s)) s))
  ∧ (∀ email user role now now',
     logged_in s email user →
     status c = ContractStatus.ACTIVE →
     u_id user = c_farmer_id c ∨ c_trader_id c = Some (u_id user) →
     complete_contract (mk_CompleteContractRequest key role) email now now' s
       = (Raise (KeyError (c_product_id c)),
          set_contracts_db
            (<[key := completed now role c]> (contracts_db s)) s)).
Proof.
  intros Hc Hp. split_and!.
  - intros email user now now' (user_id & Hs & Hu) Ht Hcb Hst Hf.
    munfold. mforward. done.
  - intros email user now now' (user_id & Hs & Hu) Ht Hcb Hst.
    munfold. mforward. done.
  - intros email user reason now now' (user_id & Hs & Hu) Ht Hcb Hst.
    munfold. mforward. done.
  - intros email user now now' (user_id & Hs & Hu) Ht Hcb Hst Hf.
    munfold. mforward. done.
  - intros email user role now now' (user_id & Hs & Hu) Hst Hparty.
    munfold. mforward.
    rewrite bool_decide_eq_false_2; [mforward; done|].
    intros Hnot. apply Hnot. destruct Hparty as [-> | ->]; set_solver.
Qed.

(** *** Who may do what *)

Lemma list_product_inv s request email product_id now now' p' s' :
  list_product request email product_id now now' s = (Ok p', s') →
  ∃ user, logged_in s email user ∧ u_type user = UserType.FARMER
          ∧ p_farmer_id p' = u_id user ∧ freshly_listed p'
          ∧ products_db s' = <[product_id := p']> (products_db s)
          ∧ contracts_db s' = contracts_db s.
Proof.
  intros Hrun. munfold. mcases. unfold logged_in.
  eexists. split_and!; eauto. by repeat split.
Qed.

(** X8. A request succeeds only for a caller the handler authorises:
    listing and proposing for a farmer (proposing on a listing of
    their own); offering and accepting a proposal for any trader; accepting
    or rejecting an offer for the farmer it names; rejecting a proposal
    for any trader; cancelling for the creator; completing for the
    farmer or the trader of the contract. *)
Theorem only_authorised_callers_succeed s email :
  (∀ request product_id now now' p' s',
     list_product request email product_id now now' s = (Ok p', s') →
     ∃ user, logged_in s email user ∧ u_type user = UserType.FARMER)
  ∧ (∀ request contract_id now now' c' s',
     create_contract_by_farmer request email contract_id now now' s
       = (Ok c', s') →
     ∃ user p, logged_in s email user ∧ u_type user = UserType.FARMER
       ∧ products_db s !! cf_product_id request = Some p
       ∧ p_farmer_id p = u_id user)
  ∧ (∀ request contract_id now c' s',
     create_contract_by_trader request email contract_id now s
       = (Ok c', s') →
     ∃ user p, logged_in s email user ∧ u_type user = UserType.TRADER
       ∧ products_db s !! ct_product_id request = Some p
       ∧ ct_farmer_id request = p_farmer_id p)
  ∧ (∀ request now now' c' s',
     trader_accept_contract request email now now' s = (Ok c', s') →
     ∃ user c, logged_in s email user ∧ u_type user = UserType.TRADER
       ∧ contracts_db s !! ac_contract_id request = Some c
       ∧ created_by c = CreatedBy.FARMER)
  ∧ (∀ request now now' c' s',
     farmer_accept_contract request email now now' s = (Ok c', s') →
     ∃ user c, logged_in s email user ∧ u_type user = UserType.FARMER
       ∧ contracts_db s !! ac_contract_id request = Some c
       ∧ created_by c = CreatedBy.TRADER ∧ c_farmer_id c = u_id user)
  ∧ (∀ request now now' c' s',
     reject_contract request email now now' s = (Ok c', s') →
     ∃ user c, logged_in s email user
       ∧ contracts_db s !! rj_contract_id request = Some c
       ∧ (created_by c = CreatedBy.FARMER ∧ u_type user = UserType.TRADER
          ∨ created_by c = CreatedBy.TRADER ∧ u_type user = UserType.FARMER
            ∧ c_farmer_id c = u_id user))
  ∧ (∀ request now now' c' s',
     cancel_contract request email now now' s = (Ok c', s') →
     ∃ user c, logged_in s email user
       ∧ contracts_db s !! cn_contract_id request = Some c
       ∧ (created_by c = CreatedBy.FARMER ∧ u_type user = UserType.FARMER
            ∧ c_farmer_id c = u_id user
          ∨ created_by c = CreatedBy.TRADER ∧ u_type user = UserType.TRADER
            ∧ c_trader_id c = Some (u_id user)))
  ∧ (∀ request now now' c' s',
     complete_contract request email now now' s = (Ok c', s') →
     ∃ user c, logged_in s email user
       ∧ contracts_db s !! cp_contract_id request = Some c
       ∧ (u_id user = c_farmer_id c ∨ c_trader_id c = Some (u_id user))).
Proof.
  split_and!.
  - intros request product_id now now' p' s' Hrun.
    destruct (list_product_inv _ _ _ _ _ _ _ _ Hrun) as (user & ? & ? & _).
    eauto.
  - intros request contract_id now now' c' s' Hrun.
    destruct (create_contract_by_farmer_inv _ _ _ _ _ _ _ _ Hrun)
      as (user & p & ? & ? & ? & ? & _).
    eauto 10.
  - intros request contract_id now c' s' Hrun.
    destruct (create_contract_by_trader_inv _ _ _ _ _ _ _ Hrun)
      as (user & p & ? & ? & ? & ? & _).
    eauto 10.
  - intros request now now' c' s' Hrun.
    destruct (trader_accept_contract_inv _ _ _ _ _ _ _ Hrun)
      as (user & c & p & ? & ? & ? & ? & _).
    eauto 10.
  - intros request now now' c' s' Hrun.
    destruct (farmer_accept_contract_inv _ _ _ _ _ _ _ Hrun)
      as (user & c & p & ? & ? & ? & ? & ? & ? & _).
    eauto 10.
  - intros request now now' c' s' Hrun.
    destruct (reject_contract_inv _ _ _ _ _ _ _ Hrun)
      as (user & c & ? & ? & ? & Hwho).
    exists user, c. split_and!; [done..|]. naive_solver.
  - intros request now now' c' s' Hrun.
    destruct (cancel_contract_inv _ _ _ _ _ _ _ Hrun)
      as (user & c & ? & ? & ? & Hwho).
    exists user, c. split_and!; [done..|]. naive_solver.
  - intros request now now' c' s' Hrun.
    destruct (complete_contract_inv _ _ _ _ _ _ _ Hrun)
      as (user & c & p & ? & ? & ? & ? & _).
    eauto 10.
Qed.

End Refusals.

(** * The counters, accounted for by the contracts *)

Section Accounts.
Context {N : Type} `{PyNum N}.

#[local] Abbreviation db := (@db N).
#[local] Abbreviation product := (@product N).
#[local] Abbreviation contract := (@contract N).
#[local] Abbreviation api_call := (@api_call N).

Implicit Types (s : db) (c : contract) (p : product).

(** One write to a counter: [counter += q] or [counter -= q]. *)
Inductive entry :=
  | Credit (q : N)
  | Debit (q : N).

Definition post (x : N) (e : entry) : N :=
  match e with
  | Credit q => num_add x q
  | Debit q => num_sub x q
  end.

Definition credits (entries : list entry) : list N :=
  e ← entries; match e with Credit q => [q] | Debit _ => [] end.

Definition debits (entries : list entry) : list N :=
  e ← entries; match e with Credit _ => [] | Debit q => [q] end.

(** Selections of contracts. *)
Definition no_contract c : bool := false.

(** ACTIVE or COMPLETED: the contract has been accepted. *)
Definition accepted_contract c : bool :=
  bool_decide (status c = ContractStatus.ACTIVE)
  || bool_decide (status c = ContractStatus.COMPLETED).

Definition completed_contract c : bool :=
  bool_decide (status c = ContractStatus.COMPLETED).

(** A proposal of the farmer's, whatever has become of it. *)
Definition proposal c : bool :=
  bool_decide (created_by c = CreatedBy.FARMER).

(** A proposal of the farmer's that is no longer pending. *)
Definition settled_proposal c : bool :=
  bool_decide (created_by c = CreatedBy.FARMER)
  && negb (bool_decide (status c = ContractStatus.PENDING)).

(** The quantity of [c] if it is a selected contract on the listing
    [product_id]. *)
Definition weight (sel : contract → bool) (product_id : string) c : list N :=
  if sel c && bool_decide (c_product_id c = product_id) then [qty c] else [].

(** The quantities of the selected contracts on a listing, in no
    particular order. *)
Definition quantities (sel : contract → bool) (product_id : string)
    (m : gmap string contract) : list N :=
  kc ← map_to_list m; weight sel product_id kc.2.

(** The counter [x] is accounted for: it is what [x0] becomes when the
    quantities of the [credit] contracts of the listing are added and
    those of its [debit] contracts subtracted, each once, in some
    order. *)
Definition account (x0 x : N) (credit debit : contract → bool)
    (product_id : string) (m : gmap string contract) : Prop :=
  ∃ entries,
    x = foldl post x0 entries
    ∧ credits entries ≡ₚ quantities credit product_id m
    ∧ debits entries ≡ₚ quantities debit product_id m.

(** The four counters of a listing: [available_qty] is the listed
    quantity less the accepted contracts, [total_qty] the listed
    quantity less the completed ones; [committed_qty] is zero plus the
    accepted contracts less the completed ones, [reserved_qty] zero
    plus the farmer's proposals less those no longer pending. *)
Definition accounted (product_id : string) p
    (m : gmap string contract) : Prop :=
  ∃ listed,
    account listed (available_qty p) no_contract accepted_contract
      product_id m
    ∧ account listed (total_qty p) no_contract completed_contract
        product_id m
    ∧ account num_zero (committed_qty p) accepted_contract
        completed_contract product_id m
    ∧ account num_zero (reserved_qty p) proposal settled_proposal
        product_id m.

Lemma quantities_insert sel product_id (m : gmap string contract) k c' :
  quantities sel product_id (<[k := c']> m)
    ++ from_option (weight sel product_id) [] (m !! k)
  ≡ₚ weight sel product_id c' ++ quantities sel product_id m.
Proof.
  unfold quantities. destruct (m !! k) as [c|] eqn:Hk; simpl.
  - rewrite <- (insert_delete_eq m k c').
    rewrite <- (map_to_list_delete m k c Hk).
    rewrite map_to_list_insert by apply lookup_delete_eq.
    rewrite !bind_cons. simpl.
    rewrite <- !(assoc (++)). f_equiv. apply Permutation_app_comm.
  - rewrite app_nil_r, map_to_list_insert by done. by rewrite bind_cons.
Qed.

Lemma quantities_keep sel product_id (m : gmap string contract) k c' :
  from_option (weight sel product_id) [] (m !! k) = weight sel product_id c' →
  quantities sel product_id (<[k := c']> m) ≡ₚ quantities sel product_id m.
Proof.
  intros Hw. pose proof (quantities_insert sel product_id m k c') as Hq.
  rewrite Hw, Permutation_app_comm in Hq. by apply Permutation_app_inv_l in Hq.
Qed.

Lemma quantities_gain sel product_id (m : gmap string contract) k c' q :
  from_option (weight sel product_id) [] (m !! k) = [] →
  weight sel product_id c' = [q] →
  quantities sel product_id (<[k := c']> m)
  ≡ₚ q :: quantities sel product_id m.
Proof.
  intros Hw Hw'. pose proof (quantities_insert sel product_id m k c') as Hq.
  by rewrite Hw, Hw', app_nil_r in Hq.
Qed.

Lemma quantities_unlisted sel product_id (m : gmap string contract) :
  (∀ k c, m !! k = Some c → c_product_id c ≠ product_id) →
  quantities sel product_id m = [].
Proof.
  intros Hm. unfold quantities.
  assert (Forall (λ kc, c_product_id kc.2 ≠ product_id) (map_to_list m)) as Hall.
  { apply Forall_forall. intros [k c] Hkc%elem_of_map_to_list. by eapply Hm. }
  induction Hall as [| [k c] l Hc _ IH]; [done|].
  rewrite bind_cons, IH. unfold weight. simpl.
  by rewrite (bool_decide_eq_false_2 _ Hc), andb_false_r.
Qed.

Lemma credits_snoc entries e :
  credits (entries ++ [e])
  = credits entries ++ match e with Credit q => [q] | Debit _ => [] end.
Proof. unfold credits. rewrite bind_app. simpl. by rewrite app_nil_r. Qed.

Lemma debits_snoc entries e :
  debits (entries ++ [e])
  = debits entries ++ match e with Credit _ => [] | Debit q => [q] end.
Proof. unfold debits. rewrite bind_app. simpl. by rewrite app_nil_r. Qed.

(** How an account follows an assignment [contracts_db[k] = c']. *)
Lemma account_keep x0 x credit debit product_id
    (m : gmap string contract) k c' :
  account x0 x credit debit product_id m →
  from_option (weight credit product_id) [] (m !! k)
    = weight credit product_id c' →
  from_option (weight debit product_id) [] (m !! k)
    = weight debit product_id c' →
  account x0 x credit debit product_id (<[k := c']> m).
Proof.
  intros (entries & Hx & Hc & Hd) Hwc Hwd. exists entries.
  by rewrite !quantities_keep.
Qed.

Lemma account_credit x0 x credit debit product_id
    (m : gmap string contract) k c' q :
  account x0 x credit debit product_id m →
  from_option (weight credit product_id) [] (m !! k) = [] →
  weight credit product_id c' = [q] →
  from_option (weight debit product_id) [] (m !! k)
    = weight debit product_id c' →
  account x0 (num_add x q) credit debit product_id (<[k := c']> m).
Proof.
  intros (entries & Hx & Hc & Hd) Hwc Hwc' Hwd.
  exists (entries ++ [Credit q]). split_and!.
  - by rewrite foldl_snoc, <- Hx.
  - rewrite credits_snoc, (quantities_gain _ _ _ _ _ q), Hc by done.
    symmetry. apply Permutation_cons_append.
  - by rewrite debits_snoc, app_nil_r, quantities_keep.
Qed.

Lemma account_debit x0 x credit debit product_id
    (m : gmap string contract) k c' q :
  account x0 x credit debit product_id m →
  from_option (weight credit product_id) [] (m !! k)
    = weight credit product_id c' →
  from_option (weight debit product_id) [] (m !! k) = [] →
  weight debit product_id c' = [q] →
  account x0 (num_sub x q) credit debit product_id (<[k := c']> m).
Proof.
  intros (entries & Hx & Hc & Hd) Hwc Hwd Hwd'.
  exists (entries ++ [Debit q]). split_and!.
  - by rewrite foldl_snoc, <- Hx.
  - by rewrite credits_snoc, app_nil_r, quantities_keep.
  - rewrite debits_snoc, (quantities_gain _ _ _ _ _ q), Hd by done.
    symmetry. apply Permutation_cons_append.
Qed.

Lemma account_new x0 credit debit product_id (m : gmap string contract) :
  (∀ k c, m !! k = Some c → c_product_id c ≠ product_id) →
  account x0 x0 credit debit product_id m.
Proof.
  intros Hm. exists []. by rewrite !quantities_unlisted.
Qed.

(** Every listing of the database is accounted for. *)
Definition ledger s : Prop :=
  ∀ product_id p, products_db s !! product_id = Some p →
    accounted product_id p (contracts_db s).

Ltac weigh :=
  solve [
    repeat match goal with
      | H : contracts_db _ !! _ = _ |- _ => rewrite H
      end;
    unfold weight, no_contract, accepted_contract, completed_contract,
      proposal, settled_proposal, released;
    simpl;
    repeat match goal with
      | H : status _ = _ |- _ => rewrite !H
      | H : created_by _ = _ |- _ => rewrite !H
      end;
    repeat case_bool_decide; simplify_eq/=; try done; congruence ].

Ltac keep_account :=
  first
    [ eapply account_keep; [eassumption | weigh..]
    | eapply account_credit; [eassumption | weigh..]
    | eapply account_debit; [eassumption | weigh..] ].

Lemma transition_ledger s s' :
  linked s → ledger s → transition s s' → ledger s'.
Proof.
  intros Hl Ha Htr pk p0. destruct Htr; simpl.
  all: try match goal with
    | Hc : contracts_db _ !! _ = Some ?c,
      Hp : products_db _ !! c_product_id ?c = None |- _ =>
        destruct (Hl _ _ Hc) as (_ & ? & ? & _); congruence
    end.
  all: try apply Ha.
  all: rewrite ?lookup_insert; try case_decide.
  all: try (intros [= <-]; simpl).
  all: try (intros Hp0; destruct (Ha _ _ Hp0) as (listed & HA & HT & HC & HR)).
  all: try match goal with
    | Hp : products_db _ !! _ = Some ?p |- accounted _ _ _ =>
        lazymatch goal with
        | H : account _ (available_qty p) _ _ _ _ |- _ => fail
        | _ => destruct (Ha _ _ Hp) as (listed & HA & HT & HC & HR)
        end
    end.
  all: simplify_eq/=.
  all: try (exists listed; unfold released; simpl; split_and!; keep_account).
  all: try by apply Ha.
  exists (lp_qty request). simpl.
  assert (∀ k c, contracts_db s !! k = Some c → c_product_id c ≠ pk) as Hnone.
  { intros k c Hc <-. destruct (Hl _ _ Hc) as (_ & ? & ? & _). congruence. }
  split_and!; by apply account_new.
Qed.

Lemma initial_ledger s : initial s → ledger s.
Proof.
  intros [Hc Hp] product_id p Hlisting.
  destruct (Hp _ _ Hlisting) as (_ & Ha & Hr & Hcm).
  exists (total_qty p). rewrite Hc, Ha, Hr, Hcm.
  split_and!; apply account_new; intros k c; by rewrite lookup_empty.
Qed.

Lemma reachable_ledger s : reachable s → ledger s.
Proof.
  intros Hs. cut (linked s ∧ ledger s); [tauto|]. revert s Hs.
  apply reachable_invariant.
  - intros s Hs. split; [|by apply initial_ledger].
    intros k c. destruct Hs as [-> _]. by rewrite lookup_empty.
  - intros s s' [Hl Ha] Htr.
    split; [by eapply transition_linked | by eapply transition_ledger].
Qed.

(** X9. Stock is accounted for by the contracts.  On every listing of a
    reachable database there is a listed quantity from which
    [available_qty] results by subtracting, one after the other, the
    quantity of each contract on the listing that is ACTIVE or
    COMPLETED, and [total_qty] by subtracting that of each COMPLETED
    one; [committed_qty] results from zero by adding the quantity of
    each ACTIVE or COMPLETED contract and subtracting that of each
    COMPLETED one.  Each contract counts once; the order is that of the
    requests.  This holds in Python's floats, where the results depend
    on the order, as in any other arithmetic. *)
Theorem stock_is_accounted_for s product_id p :
  reachable s → products_db s !! product_id = Some p →
  ∃ listed,
    account listed (available_qty p) no_contract accepted_contract
      product_id (contracts_db s)
    ∧ account listed (total_qty p) no_contract completed_contract
        product_id (contracts_db s)
    ∧ account num_zero (committed_qty p) accepted_contract
        completed_contract product_id (contracts_db s).
Proof.
  intros Hs Hp.
  destruct (reachable_ledger s Hs _ _ Hp) as (listed & HA & HT & HC & _).
  by exists listed.
Qed.

(** X10. Reservations are accounted for by the farmer's proposals.  On
    every listing of a reachable database [reserved_qty] results from
    zero by adding the quantity of each farmer-created contract on the
    listing and subtracting that of each farmer-created contract that is
    no longer PENDING (accepted, rejected or cancelled), each once, in
    the order of the requests.  This holds in Python's floats, where the
    result depends on the order, as in any other arithmetic. *)
Theorem reservations_are_accounted_for s product_id p :
  reachable s → products_db s !! product_id = Some p →
  account num_zero (reserved_qty p) proposal settled_proposal product_id
    (contracts_db s).
Proof.
  intros Hs Hp.
  by destruct (reachable_ledger s Hs _ _ Hp) as (listed & _ & _ & _ & HR).
Qed.

End Accounts.

(** * The terms of a contract *)

Section Terms.
Context {N : Type} `{PyNum N}.

#[local] Abbreviation db := (@db N).
#[local] Abbreviation contract := (@contract N).

Implicit Types (s : db) (c : contract).

(** The price and the quantity passed the validation of the request
    model, and the value is their product. *)
Definition priced c : Prop :=
  num_gt (price_per_unit c) num_zero = true
  ∧ num_gt (qty c) num_zero = true
  ∧ total_value c = num_mul (price_per_unit c) (qty c).

Lemma transition_priced s s' :
  (∀ k c, contracts_db s !! k = Some c → priced c) → transition s s' →
  ∀ k c, contracts_db s' !! k = Some c → priced c.
Proof.
  intros Hs Htr k c'. destruct Htr; simpl; try apply Hs.
  all: rewrite lookup_insert; case_decide; [|apply Hs].
  all: intros [= <-]; unfold priced; simpl; eauto.
  all: by eapply Hs.
Qed.

(** X11. Every contract of a reachable database has a price and a
    quantity greater than zero, and its [total_value] is the product of
    the two, whatever has happened to the contract since it was
    created. *)
Theorem reachable_contracts_are_priced s k c :
  reachable s → contracts_db s !! k = Some c → priced c.
Proof.
  intros Hs. revert k c. revert s Hs.
  apply (reachable_invariant
           (λ s, ∀ k c, contracts_db s !! k = Some c → priced c)).
  - intros s [-> _] k c. by rewrite lookup_empty.
  - apply transition_priced.
Qed.

End Terms.

(** * Market prices and forecasts *)

(** ** Python's list operations *)

(** [if x:] for an optional string: [None] and the empty string are
    false. *)
Definition truthy (x : option string) : bool :=
  match x with
  | Some (String _ _) => true
  | _ => false
  end.

(** [a] comes strictly before [b] in the order [list.sort] sorts the
    keys into: ascending, or descending with [reverse=True].  Python
    compares strings by code point, as [String.ltb] does. *)
Definition before (reverse : bool) (a b : string) : bool :=
  if reverse then String.ltb b a else String.ltb a b.

(** [list.sort(key=..., reverse=...)] is stable: elements with equal
    keys keep the order they had, with [reverse=True] too.  As an
    insertion sort: [x], which stood in front of the elements of [l],
    passes only the elements that have to come strictly before it. *)
Fixpoint insert_by {A} (key : A → string) (reverse : bool) (x : A)
    (l : list A) : list A :=
  match l with
  | [] => [x]
  | y :: l' =>
      if before reverse (key y) (key x)
      then y :: insert_by key reverse x l'
      else x :: l
  end.

Definition sort_by {A} (key : A → string) (reverse : bool) (l : list A)
    : list A :=
  foldr (insert_by key reverse) [] l.

(** The slice [l[:n]]: a negative [n] counts from the end. *)
Definition slice_to {A} (n : Z) (l : list A) : list A :=
  if n <? 0 then take (Z.to_nat (Z.of_nat (length l) + n)) l
  else take (Z.to_nat n) l.

(** The order of the keys after the sort. *)
Definition in_order (reverse : bool) (a b : string) : Prop :=
  if reverse then String.leb b a = true else String.leb a b = true.

Section Market.
Context {N : Type} `{PyNum N}.

#[local] Abbreviation db := (@db N).
#[local] Abbreviation M := (@M N).

(** ** The collections *)

(** An element of [market_prices_db]. *)
Record market_price := mk_market_price {
  mp_id : string;
  mp_product_type : string;
  mp_price : N;
  mp_unit : string;
  mp_date : string;
  mp_source : string;
  mp_created_at : string
}.

(** An element of [forecasts_db]. *)
Record forecast := mk_forecast {
  fc_id : string;
  fc_product_type : string;
  fc_forecast_date : string;
  fc_predicted_price : N;
  fc_confidence_lower : N;
  fc_confidence_upper : N;
  fc_model_version : string;
  fc_unit : string;
  fc_generated_at : string
}.

(** ** The responses *)

(** An element of ["prices"] in the response of [get_current_prices]. *)
Record quote := mk_quote {
  q_product_type : string;
  q_price : N;
  q_unit : string;
  q_date : string;
  q_source : string
}.

(** An element of ["predictions"]. *)
Record prediction := mk_prediction {
  pr_date : string;
  pr_predicted_price : N;
  pr_confidence_lower : N;
  pr_confidence_upper : N
}.

(** An element of ["forecasts"] in the response of [get_forecasts]. *)
Record forecast_series := mk_forecast_series {
  fs_product_type : string;
  fs_predictions : list prediction;
  fs_model_version : string;
  fs_generated_at : string
}.

(** ** The handlers *)

Definition product_types : list string :=
  ["Soybean"; "Sunflower"; "Groundnut"; "Mustard"; "Sesame"].

(** The types a request asks for: [product_types], or [[type]] under
    [if type:]. *)
Definition requested_types (type : option string) : list string :=
  if truthy type then [default EmptyString type] else product_types.

Definition quote_of (latest : market_price) : quote :=
  mk_quote (mp_product_type latest) (mp_price latest) (mp_unit latest)
    (mp_date latest) (mp_source latest).

(** The body of the loop of [get_current_prices]: what one product type
    appends to [result]. *)
Definition current_price (market_prices_db : list market_price)
    (product_type : string) : list quote :=
  let prices :=
    filter (λ p, mp_product_type p = product_type) market_prices_db in
  match prices with
  | [] => []
  | _ :: _ =>
      match sort_by mp_date true prices !! 0%nat with
      | Some latest => [quote_of latest]
      | None => []
      end
  end.

Definition get_current_prices (market_prices_db : list market_price)
    (email : string) (type : option string) : M (list quote) :=
  user ← get_current_user_email email;
  mret (product_type ← requested_types type;
        current_price market_prices_db product_type).

(** The list [prices] of [get_price_history] when the statistics are
    computed: the prices of the type, latest first, cut to [days]
    entries and put in chronological order. *)
Definition price_window (market_prices_db : list market_price)
    (type : string) (days : Z) : list market_price :=
  let prices := filter (λ p, mp_product_type p = type) market_prices_db in
  let prices := sort_by mp_date true prices in
  let prices := slice_to days prices in
  reverse prices.

(** [get_price_history], with the keys ["product_type"] and ["history"]
    of its response; the key ["statistics"] (the minimum, the maximum,
    the mean and the rounded spread of the same prices) is not
    modelled. *)
Definition get_price_history (market_prices_db : list market_price)
    (email : string) (type : string) (days : Z)
    : M (string * list (string * N)) :=
  user ← get_current_user_email email;
  let prices := price_window market_prices_db type days in
  let history := (λ p, (mp_date p, mp_price p)) <$> prices in
  mret (type, history).

Definition prediction_of (f : forecast) : prediction :=
  mk_prediction (fc_forecast_date f) (fc_predicted_price f)
    (fc_confidence_lower f) (fc_confidence_upper f).

(** The body of the loop of [get_forecasts]. *)
Definition forecast_of (forecasts_db : list forecast) (days : Z)
    (product_type : string) : list forecast_series :=
  let forecasts :=
    filter (λ f, fc_product_type f = product_type) forecasts_db in
  let forecasts := sort_by fc_forecast_date false forecasts in
  let forecasts := slice_to days forecasts in
  let predictions := prediction_of <$> forecasts in
  match forecasts with
  | [] => []
  | first :: _ =>
      [mk_forecast_series product_type predictions
         (fc_model_version first) (fc_generated_at first)]
  end.

Definition get_forecasts (forecasts_db : list forecast)
    (email : string) (type : option string) (days : Z)
    : M (list forecast_series) :=
  user ← get_current_user_email email;
  mret (product_type ← requested_types type;
        forecast_of forecasts_db days product_type).

End Market.

(** ** The order of strings *)

Lemma ltb_trans a b c :
  String.ltb a b = true → String.ltb b c = true → String.ltb a c = true.
Proof.
  unfold String.ltb. intros Hab Hbc.
  assert (String.compare a b = Lt) as Hab' by (by destruct (String.compare a b)).
  assert (String.compare b c = Lt) as Hbc' by (by destruct (String.compare b c)).
  apply OrderedTypeEx.String_as_OT.cmp_lt in Hab', Hbc'.
  pose proof (OrderedTypeEx.String_as_OT.lt_trans _ _ _ Hab' Hbc') as Hac.
  apply OrderedTypeEx.String_as_OT.cmp_lt in Hac.
  unfold OrderedTypeEx.String_as_OT.cmp in Hac. by rewrite Hac.
Qed.

Lemma leb_ltb a b : String.leb a b = negb (String.ltb b a).
Proof.
  unfold String.leb, String.ltb. rewrite (String.compare_antisym b a).
  by destruct (String.compare a b).
Qed.

Lemma ltb_leb a b : String.ltb a b = true → String.leb a b = true.
Proof.
  unfold String.leb, String.ltb. by destruct (String.compare a b).
Qed.

Lemma leb_cases a b : String.leb a b = true → a = b ∨ String.ltb a b = true.
Proof.
  unfold String.leb, String.ltb.
  destruct (String.compare a b) eqn:Hc; [|by right|done].
  left. by apply String.compare_eq_iff.
Qed.

Lemma leb_trans a b c :
  String.leb a b = true → String.leb b c = true → String.leb a c = true.
Proof.
  intros Hab [<- | Hbc]%leb_cases; [done|].
  apply leb_cases in Hab as [-> | Hab]; apply ltb_leb; [done|].
  by eapply ltb_trans.
Qed.

Lemma leb_refl a : String.leb a a = true.
Proof. by destruct (String.leb_total a a). Qed.
Lemma ltb_irrefl a : String.ltb a a = false.
Proof.
  pose proof (leb_ltb a a) as Hle. rewrite leb_refl in Hle.
  by destruct (String.ltb a a).
Qed.

#[local] Instance in_order_trans reverse : Transitive (in_order reverse).
Proof.
  intros a b c. destruct reverse; simpl; intros; by eapply leb_trans.
Qed.

Lemma before_in_order reverse a b :
  before reverse a b = true → in_order reverse a b.
Proof. destruct reverse; simpl; apply ltb_leb. Qed.

Lemma not_before_in_order reverse a b :
  before reverse a b = false → in_order reverse b a.
Proof.
  destruct reverse; simpl; intros Hlt; rewrite leb_ltb, Hlt; done.
Qed.

(** ** Sorting, slicing *)

Section Sorting.
Context {A : Type} (key : A → string) (reverse : bool).

Lemma insert_by_perm x (l : list A) : insert_by key reverse x l ≡ₚ x :: l.
Proof.
  induction l as [| y l IH]; simpl; [done|].
  case_match; [|done]. rewrite IH. apply Permutation_swap.
Qed.

Lemma sort_by_perm (l : list A) : sort_by key reverse l ≡ₚ l.
Proof.
  induction l as [| x l IH]; simpl; [done|].
  fold (sort_by key reverse l). by rewrite insert_by_perm, IH.
Qed.

Lemma insert_by_sorted x (l : list A) :
  StronglySorted (λ a b, in_order reverse (key a) (key b)) l →
  StronglySorted (λ a b, in_order reverse (key a) (key b))
    (insert_by key reverse x l).
Proof.
  induction 1 as [| y l Hl IH Hy]; simpl.
  - repeat constructor.
  - case_match eqn:Hb.
    + constructor; [done|]. rewrite insert_by_perm.
      constructor; [by apply before_in_order | done].
    + apply not_before_in_order in Hb.
      constructor; [by constructor|]. constructor; [done|].
      eapply Forall_impl; [exact Hy|]. simpl. intros z Hz.
      by etrans.
Qed.

Lemma sort_by_sorted (l : list A) :
  StronglySorted (λ a b, in_order reverse (key a) (key b))
    (sort_by key reverse l).
Proof.
  induction l as [| x l IH]; simpl; [constructor|].
  by apply insert_by_sorted.
Qed.

Lemma slice_to_take n (l : list A) :
  ∃ k, slice_to n l = take k l
       ∧ length (slice_to n l)
         = if n <? 0 then Z.to_nat (Z.of_nat (length l) + n)
           else Nat.min (Z.to_nat n) (length l).
Proof.
  unfold slice_to. case_match eqn:Hn; eexists; (split; [done|]);
    rewrite length_take; lia.
Qed.

End Sorting.

Lemma filter_insert_by {A} (key : A → string) (reverse : bool) (k : string)
    (x : A) (l : list A) :
  filter (λ x, key x = k) (insert_by key reverse x l)
  = filter (λ x, key x = k) (x :: l).
Proof.
  induction l as [| y l IH]; [done|]. simpl.
  destruct (before reverse (key y) (key x)) eqn:Hb; [|done].
  rewrite (filter_cons _ y), IH, !filter_cons.
  repeat case_decide; try done.
  assert (key y = key x) as Heq by congruence.
  destruct reverse; simpl in Hb; by rewrite Heq, ltb_irrefl in Hb.
Qed.

(** The sort is stable: the elements with one key stand in the sorted
    list in the order they had. *)
Lemma sort_by_stable {A} (key : A → string) (reverse : bool) (k : string)
    (l : list A) :
  filter (λ x, key x = k) (sort_by key reverse l)
  = filter (λ x, key x = k) l.
Proof.
  induction l as [| x l IH]; [done|]. simpl. fold (sort_by key reverse l).
  by rewrite filter_insert_by, !filter_cons, IH.
Qed.

Lemma StronglySorted_reverse {A} (R : relation A) (l : list A) :
  StronglySorted R l → StronglySorted (flip R) (reverse l).
Proof.
  induction 1 as [| x l Hl IH Hx]; [constructor|].
  rewrite reverse_cons. apply StronglySorted_app_2; [|done|repeat constructor].
  intros a b Ha Hb%list_elem_of_singleton. subst b.
  rewrite elem_of_reverse in Ha.
  rewrite Forall_forall in Hx. unfold flip. by apply Hx.
Qed.

(** What [l.sort(key=..., reverse=...)] followed by [l[:n]] keeps: a
    sorted list that, with the elements it leaves out, makes up [l], and
    every element left out comes after every element kept. *)
Lemma sorted_slice {A} (key : A → string) (reverse : bool) (n : Z)
    (l : list A) :
  StronglySorted (λ a b, in_order reverse (key a) (key b))
    (slice_to n (sort_by key reverse l))
  ∧ length (slice_to n (sort_by key reverse l))
    = (if n <? 0 then Z.to_nat (Z.of_nat (length l) + n)
       else Nat.min (Z.to_nat n) (length l))
  ∧ ∃ rest, slice_to n (sort_by key reverse l) ++ rest ≡ₚ l
            ∧ ∀ a b, a ∈ slice_to n (sort_by key reverse l) → b ∈ rest →
                     in_order reverse (key a) (key b).
Proof.
  destruct (slice_to_take n (sort_by key reverse l)) as (k & -> & Hlen).
  pose proof (sort_by_sorted key reverse l) as Hsorted.
  rewrite <- (take_drop k (sort_by key reverse l)) in Hsorted.
  split_and!.
  - by eapply StronglySorted_app_1_l.
  - rewrite Hlen. by rewrite (Permutation_length (sort_by_perm key reverse l)).
  - exists (drop k (sort_by key reverse l)). split.
    + rewrite take_drop. apply sort_by_perm.
    + intros a b Ha Hb.
      exact (StronglySorted_app_1_elem_of _ _ _ a b Hsorted Ha Hb).
Qed.

(** * What the market endpoints answer *)

Section MarketTheory.
Context {N : Type} `{PyNum N}.

#[local] Abbreviation db := (@db N).
#[local] Abbreviation market_price := (@market_price N).
#[local] Abbreviation forecast := (@forecast N).
#[local] Abbreviation quote := (@quote N).

Implicit Types (s : db) (email : string).

(** A handler that only reads: after the authentication it returns its
    answer and leaves the database as it was. *)
Lemma read_only {A} (answer : A) email s r s' :
  (user ← get_current_user_email email; mret answer) s = (Ok r, s') →
  s' = s ∧ r = answer.
Proof. munfold. intros Hrun. by mcases. Qed.

(** One round of the loop of [get_current_prices]: nothing for a type
    without prices, else the quote of a price of this type than which
    none is later. *)
Lemma current_price_spec (market_prices_db : list market_price)
    (product_type : string) :
  (current_price market_prices_db product_type = []
   ∧ ∀ p, p ∈ market_prices_db → mp_product_type p ≠ product_type)
  ∨ ∃ latest,
      current_price market_prices_db product_type = [quote_of latest]
      ∧ latest ∈ market_prices_db
      ∧ mp_product_type latest = product_type
      ∧ (∀ p, p ∈ market_prices_db → mp_product_type p = product_type →
              String.leb (mp_date p) (mp_date latest) = true)
      ∧ head (filter (λ p, mp_date p = mp_date latest)
                (filter (λ p, mp_product_type p = product_type)
                   market_prices_db))
        = Some latest.
Proof.
  unfold current_price.
  destruct (filter _ market_prices_db) as [| p0 prices] eqn:Hf.
  - left. split; [done|]. intros p Hp Ht.
    assert (p ∈ filter (λ p, mp_product_type p = product_type)
                  market_prices_db) as Hin
      by (by apply list_elem_of_filter).
    rewrite Hf in Hin. by apply not_elem_of_nil in Hin.
  - right. rewrite <- Hf.
    pose proof (sort_by_perm mp_date true
                  (filter (λ p, mp_product_type p = product_type)
                     market_prices_db)) as Hperm.
    pose proof (sort_by_sorted mp_date true
                  (filter (λ p, mp_product_type p = product_type)
                     market_prices_db)) as Hsorted.
    pose proof (λ k, sort_by_stable mp_date true k
                  (filter (λ p, mp_product_type p = product_type)
                     market_prices_db)) as Hstable.
    destruct (sort_by mp_date true _) as [| latest sorted].
    { rewrite Hf in Hperm. by apply Permutation_nil_cons in Hperm. }
    exists latest. simpl.
    assert (latest ∈ filter (λ p, mp_product_type p = product_type)
                       market_prices_db) as [Ht Hin]%list_elem_of_filter
      by (rewrite <- Hperm; apply list_elem_of_here).
    split_and!; [done..| |].
    + intros p Hp Hpt.
      assert (p ∈ latest :: sorted) as [-> | Hlater]%elem_of_cons.
      { rewrite Hperm. by apply list_elem_of_filter. }
      * apply leb_refl.
      * apply StronglySorted_inv in Hsorted as [_ Hall].
        rewrite Forall_forall in Hall. by apply (Hall p).
    + rewrite <- Hstable, filter_cons. by case_decide.
Qed.

(** X12. The current prices.  The response quotes, for each requested
    product type that has a price, a price of that type than which none
    in [market_prices_db] has a later date, and of the prices of that
    date the one that stands first in [market_prices_db]; a type without
    prices is left out without an error.  The database is not
    touched. *)
Theorem get_current_prices_quotes_the_latest
    (market_prices_db : list market_price) email type s r s' :
  get_current_prices market_prices_db email type s = (Ok r, s') →
  s' = s
  ∧ (∀ q : quote, q ∈ r →
       q_product_type q ∈ requested_types type
       ∧ ∃ latest, latest ∈ market_prices_db ∧ q = quote_of latest
           ∧ (∀ p, p ∈ market_prices_db →
                   mp_product_type p = q_product_type q →
                   String.leb (mp_date p) (q_date q) = true)
           ∧ head (filter (λ p, mp_date p = q_date q)
                     (filter (λ p, mp_product_type p = q_product_type q)
                        market_prices_db))
             = Some latest)
  ∧ (∀ p, p ∈ market_prices_db →
       mp_product_type p ∈ requested_types type →
       ∃ q, q ∈ r ∧ q_product_type q = mp_product_type p).
Proof.
  intros [-> ->]%read_only.
  split_and!; [done | |].
  - intros q (product_type & Hq & Ht)%list_elem_of_bind.
    destruct (current_price_spec market_prices_db product_type)
      as [[Hnone _] | (latest & Hsome & Hin & Hpt & Hlatest & Hfirst)].
    + rewrite Hnone in Hq. by apply not_elem_of_nil in Hq.
    + rewrite Hsome in Hq. apply list_elem_of_singleton in Hq as ->.
      simpl. rewrite Hpt. split; [done|]. exists latest.
      split_and!; [done.. | exact Hlatest | exact Hfirst].
  - intros p Hp Ht.
    destruct (current_price_spec market_prices_db (mp_product_type p))
      as [[_ Hnone] | (latest & Hsome & Hin & Hpt & _ & _)].
    + by destruct (Hnone p Hp).
    + exists (quote_of latest). split; [|done].
      apply list_elem_of_bind. exists (mp_product_type p).
      split; [|done]. rewrite Hsome. apply list_elem_of_here.
Qed.

(** X13. The price history.  The entries of ["history"] are in
    chronological order; there are [days] of them, or all the prices of
    the type if these are fewer, and with a negative [days] all but the
    [-days] oldest; every price of the type that is left out is no
    later than any entry.  The database is not touched. *)
Theorem get_price_history_is_the_latest_window
    (market_prices_db : list market_price) email type days s
    product_type history s' :
  get_price_history market_prices_db email type days s
    = (Ok (product_type, history), s') →
  let prices := filter (λ p, mp_product_type p = type) market_prices_db in
  s' = s ∧ product_type = type
  ∧ StronglySorted (λ a b, String.leb a.1 b.1 = true) history
  ∧ length history
    = (if days <? 0 then Z.to_nat (Z.of_nat (length prices) + days)
       else Nat.min (Z.to_nat days) (length prices))
  ∧ ∃ older,
      history ++ ((λ p, (mp_date p, mp_price p)) <$> older)
        ≡ₚ (λ p, (mp_date p, mp_price p)) <$> prices
      ∧ ∀ entry p, entry ∈ history → p ∈ older →
                   String.leb (mp_date p) entry.1 = true.
Proof.
  intros [-> [= -> ->]]%read_only.
  unfold price_window.
  destruct (sorted_slice mp_date true days
              (filter (λ p, mp_product_type p = type)
                 market_prices_db))
    as (Hsorted & Hlen & older & Hperm & Hold).
  split_and!; [done | done | | |].
  - apply (StronglySorted_fmap _ (flip (λ a b : market_price,
             in_order true (mp_date a) (mp_date b)))).
    + intros a b Hab. exact Hab.
    + by apply StronglySorted_reverse.
  - by rewrite length_fmap, length_reverse.
  - exists older. split.
    + rewrite <- fmap_app. apply fmap_Permutation.
      by rewrite reverse_Permutation.
    + intros entry p (w & -> & Hw)%list_elem_of_fmap Hp.
      rewrite elem_of_reverse in Hw. simpl. by apply (Hold w p).
Qed.

(** X14. The forecasts.  Each series of the response is for a requested
    product type; its predictions are in the order of their dates, never
    empty, [days] of them or all the forecasts of the type if these are
    fewer; the forecasts left out are no earlier than any prediction,
    and the model version is that of the earliest forecast kept.  With
    [days = 0] the response has no series at all. *)
Theorem get_forecasts_gives_the_next_days
    (forecasts_db : list forecast) email type days s r s' :
  get_forecasts forecasts_db email type days s = (Ok r, s') →
  s' = s
  ∧ (days = 0 → r = [])
  ∧ ∀ series, series ∈ r →
      let forecasts :=
        filter (λ f, fc_product_type f = fs_product_type series)
          forecasts_db in
      fs_product_type series ∈ requested_types type
      ∧ fs_predictions series ≠ []
      ∧ StronglySorted (λ a b, String.leb (pr_date a) (pr_date b) = true)
          (fs_predictions series)
      ∧ length (fs_predictions series)
        = (if days <? 0
           then Z.to_nat (Z.of_nat (length forecasts) + days)
           else Nat.min (Z.to_nat days) (length forecasts))
      ∧ ∃ first kept later,
          fs_predictions series = prediction_of <$> first :: kept
          ∧ fs_model_version series = fc_model_version first
          ∧ fs_generated_at series = fc_generated_at first
          ∧ first :: kept ++ later ≡ₚ forecasts
          ∧ ∀ f f', f ∈ first :: kept → f' ∈ later →
              String.leb (fc_forecast_date f) (fc_forecast_date f') = true.
Proof.
  intros [-> ->]%read_only.
  split_and!; [done | |].
  - intros ->. unfold forecast_of, slice_to. simpl.
    induction (requested_types type) as [| t ts IH]; [done|].
    by rewrite bind_cons, IH.
  - intros series (product_type & Hseries & Ht)%list_elem_of_bind.
    unfold forecast_of in Hseries.
    destruct (sorted_slice fc_forecast_date false days
                (filter (λ f, fc_product_type f = product_type)
                   forecasts_db))
      as (Hsorted & Hlen & later & Hperm & Hlater).
    destruct (slice_to days _) as [| first kept] eqn:Hslice;
      [by apply not_elem_of_nil in Hseries|].
    apply list_elem_of_singleton in Hseries as ->.
    cbn [fs_product_type fs_predictions fs_model_version fs_generated_at].
    split_and!; [done | done | | |].
    + apply (StronglySorted_fmap _ (λ a b : forecast,
               in_order false (fc_forecast_date a) (fc_forecast_date b)));
        [|done].
      intros a b Hab. exact Hab.
    + by rewrite length_fmap.
    + exists first, kept, later. split_and!; done.
Qed.

End MarketTheory.

(** * What a request leaves alone *)

Section Frames.
Context {N : Type} `{PyNum N}.

#[local] Abbreviation db := (@db N).
#[local] Abbreviation product := (@product N).
#[local] Abbreviation contract := (@contract N).
#[local] Abbreviation api_call := (@api_call N).

Implicit Types (s : db) (c : contract).

(** REJECTED, CANCELLED and COMPLETED: no handler accepts the contract
    any more. *)
Definition closed c : Prop :=
  status c = ContractStatus.REJECTED
  ∨ status c = ContractStatus.CANCELLED
  ∨ status c = ContractStatus.COMPLETED.

Lemma transition_closed s s' k c :
  transition s s' → contracts_db s !! k = Some c → closed c →
  contracts_db s' !! k = Some c.
Proof.
  intros Htr Hk Hclosed. destruct Htr; simpl; try done.
  all: rewrite lookup_insert; case_decide; [|done].
  all: unfold closed in *; simplify_eq; naive_solver congruence.
Qed.

(** X15. A closed contract is never written again.  Along any run the
    document of a contract that is REJECTED, CANCELLED or COMPLETED
    stays exactly as it is: status, audit fields and terms. *)
Theorem closed_contracts_are_frozen (calls : list api_call) s k c :
  fresh_ids calls s →
  contracts_db s !! k = Some c → closed c →
  contracts_db (run calls s) !! k = Some c.
Proof.
  intros Hfresh Hk Hclosed.
  apply (run_invariant (λ s, contracts_db s !! k = Some c)); [|done..].
  intros s1 s2 Hk1 Htr. by eapply transition_closed.
Qed.



End Frames.

(** * Stock is only ever taken off *)

Section Stock.
Context {N : Type} `{PyNum N}.

#[local] Abbreviation db := (@db N).
#[local] Abbreviation product := (@product N).
#[local] Abbreviation contract := (@contract N).
#[local] Abbreviation api_call := (@api_call N).

Implicit Types (s : db) (c : contract) (p : product).

(** [p'] is [p] after quantities greater than zero have been subtracted
    from [available_qty], one after the other, and likewise from
    [total_qty]; nothing has been added to either. *)
Definition taken_off p p' : Prop :=
  ∃ taken delivered : list N,
    Forall (λ q, num_gt q num_zero = true) taken
    ∧ Forall (λ q, num_gt q num_zero = true) delivered
    ∧ available_qty p' = foldl num_sub (available_qty p) taken
    ∧ total_qty p' = foldl num_sub (total_qty p) delivered.

Lemma taken_off_refl p : taken_off p p.
Proof. by exists [], []. Qed.

Lemma taken_off_trans p1 p2 p3 :
  taken_off p1 p2 → taken_off p2 p3 → taken_off p1 p3.
Proof.
  intros (t12 & d12 & Ht12 & Hd12 & Ha12 & Htot12)
         (t23 & d23 & Ht23 & Hd23 & Ha23 & Htot23).
  exists (t12 ++ t23), (d12 ++ d23).
  rewrite !foldl_app, <- Ha12, <- Htot12.
  split_and!; [by apply Forall_app | by apply Forall_app | done | done].
Qed.

Lemma transition_stock s s' product_id p :
  (∀ k c, contracts_db s !! k = Some c → priced c) →
  transition s s' →
  products_db s !! product_id = Some p →
  ∃ p', products_db s' !! product_id = Some p' ∧ taken_off p p'.
Proof.
  intros Hpriced Htr Hp. destruct Htr; simpl.
  all: try (exists p; split; [done | apply taken_off_refl]).
  all: try match goal with
    | Hc : contracts_db _ !! _ = Some ?c |- _ =>
        destruct (Hpriced _ _ Hc) as (_ & Hq & _)
    end.
  all: rewrite lookup_insert; case_decide; simplify_eq/=.
  all: try (exists p; split; [done | apply taken_off_refl]).
  all: eexists; (split; [done|]); unfold released; simpl.
  - exists [], []. by repeat split.
  - exists [qty c], []. by repeat split; try constructor.
  - exists [qty c], []. by repeat split; try constructor.
  - exists [], []. by repeat split.
  - exists [], []. by repeat split.
  - exists [], [qty c]. by repeat split; try constructor.
Qed.

(** X17. Stock is never replenished.  Along any run from a reachable
    database a listing stays, and its [available_qty] and its
    [total_qty] change only by subtraction of quantities greater than
    zero (an acceptance takes the contract's quantity off
    [available_qty], a completion takes it off [total_qty]): no
    rejection, cancellation or other request adds anything to either.
    This holds in Python's floats as in any other arithmetic. *)
Theorem stock_is_only_taken_off (calls : list api_call) s product_id p :
  reachable s → fresh_ids calls s →
  products_db s !! product_id = Some p →
  ∃ p', products_db (run calls s) !! product_id = Some p' ∧ taken_off p p'.
Proof.
  intros Hs. assert (∀ k c, contracts_db s !! k = Some c → priced c)
    as Hpriced.
  { revert s Hs.
    apply (reachable_invariant
             (λ s, ∀ k c, contracts_db s !! k = Some c → priced c)).
    - intros s [-> _] k c. by rewrite lookup_empty.
    - apply transition_priced. }
  clear Hs. revert s p Hpriced.
  induction calls as [| call calls IH]; intros s p Hpriced Hfresh Hp.
  - exists p. split; [done | apply taken_off_refl].
  - destruct Hfresh as [Hcall Hcalls]. simpl.
    destruct (serve_transition call s Hcall) as [Heq | Htr].
    + rewrite Heq in *. by apply IH.
    + destruct (transition_stock _ _ _ _ Hpriced Htr Hp) as (p1 & Hp1 & H1).
      destruct (IH (serve call s) p1) as (p2 & Hp2 & H2);
        [by eapply transition_priced | done | done |].
      exists p2. split; [done | by eapply taken_off_trans].
Qed.

End Stock.

(** * Instances of the further theorems *)

Module Samples.

(** A database whose only contract, a pending proposal of the farmer's,
    points at a listing that does not exist.  No run leads to it. *)
Definition orphan_contract : @contract float :=
  farmer_contract (Seed.propose 300%float UnitType.KG) Seed.farmer1
    Seed.soybean "contract-1" "t1".

Definition orphan : @db float :=
  mk_db Seed.users ∅ (<["contract-1" := orphan_contract]> ∅) Seed.logins.

(** Market prices and forecasts as [seed_data] generates them, a few
    days of two product types. *)
Definition price (id type : string) (price : float) (date : string)
    : @market_price float :=
  mk_market_price id type price "kg" date "Agmarknet" date.

Definition market_prices_db : list (@market_price float) :=
  [ price "price-1" "Soybean" 44.1%float "2025-01-01";
    price "price-2" "Soybean" 46.3%float "2025-01-03";
    price "price-3" "Soybean" 45.2%float "2025-01-02";
    price "price-4" "Mustard" 55.5%float "2025-01-02";
    price "price-5" "Soybean" 47%float "2025-01-03" ].

Definition predicted (id type : string) (price : float) (date : string)
    : @forecast float :=
  mk_forecast id type date price (price - 3)%float (price + 3)%float
    "prophet_v1" "kg" "2025-01-03T10:00:00".

Definition forecasts_db : list (@forecast float) :=
  [ predicted "forecast-1" "Soybean" 46.1%float "2025-01-05";
    predicted "forecast-2" "Soybean" 46%float "2025-01-04";
    predicted "forecast-3" "Mustard" 56%float "2025-01-04";
    predicted "forecast-4" "Soybean" 46.2%float "2025-01-06" ].

End Samples.

Lemma oversold_reachable : reachable (run Seed.oversell Seed.seeded).
Proof.
  exists Seed.seeded, Seed.oversell.
  split_and!; [apply seeded_initial | vm_compute; done | done].
Qed.

Lemma seeded_linked : linked Seed.seeded.
Proof. intros k c. unfold Seed.seeded. simpl. by rewrite lookup_empty. Qed.

(** An instance: the database after the four requests of
    [Seed.oversell]. *)
Lemma reachable_linked_witness : linked (run Seed.oversell Seed.seeded).
Proof. apply reachable_linked. apply oversold_reachable. Defined.

(** An instance: the proposal for 300 after the trader has accepted
    it. *)
Lemma contract_terms_never_change_witness :
  ∃ c', contracts_db
          (run [ TraderAcceptContract (mk_AcceptContractRequest "contract-1")
                   "trader1@test.com" "t3" "t4" ] Instances.proposed)
          !! "contract-1" = Some c'
        ∧ same_terms (Instances.contract_at "contract-1" Instances.proposed)
            c'.
Proof.
  refine (contract_terms_never_change
            [ TraderAcceptContract (mk_AcceptContractRequest "contract-1")
                "trader1@test.com" "t3" "t4" ]
            Instances.proposed "contract-1"
            (Instances.contract_at "contract-1" Instances.proposed) _ _).
  - vm_compute. done.
  - vm_compute. reflexivity.
Defined.


(** An instance: the contract the farmer accepted in [Seed.oversell]. *)
Lemma reachable_audited_witness :
  audit_ok (Instances.contract_at "contract-2"
              (run Seed.oversell Seed.seeded)).
Proof.
  refine (reachable_audited (run Seed.oversell Seed.seeded) "contract-2"
            _ _ _).
  - apply oversold_reachable.
  - vm_compute. reflexivity.
Defined.

(** An instance: an email without a session lists a product. *)
Lemma unauthenticated_requests_are_refused_witness :
  list_product (mk_ListProductRequest ProductType.SOYBEAN 10%float UnitType.KG)
    "nobody@test.com" "product-2" "t1" "t2" Seed.seeded
  = (Raise (HTTPException 401 (Msg "Not authenticated")), Seed.seeded).
Proof.
  assert (get_current_user_email "nobody@test.com" Seed.seeded
          = (Raise (HTTPException 401 (Msg "Not authenticated")),
             Seed.seeded)) as Hauth by reflexivity.
  destruct (unauthenticated_requests_are_refused _ _ _ _ Hauth)
    as (_ & _ & Hlist & _).
  apply Hlist.
Defined.

(** An instance: the trader, who is no farmer, cancels the farmer's
    proposal. *)
Lemma refused_requests_change_nothing_witness :
  ∃ e, cancel_contract (mk_CancelContractRequest "contract-1")
         "trader1@test.com" "t3" "t4" Instances.proposed
       = (Raise e, Instances.proposed)
       ∧ client_error e.
Proof.
  assert (linked Instances.proposed) as Hlinked.
  { apply (run_invariant linked); [|vm_compute; done|apply seeded_linked].
    intros s s' Hl Htr. by eapply transition_linked. }
  destruct (cancel_contract (mk_CancelContractRequest "contract-1")
              "trader1@test.com" "t3" "t4" Instances.proposed)
    as [[c | e] s'] eqn:Hrun; [vm_compute in Hrun; discriminate|].
  destruct (refused_requests_change_nothing Instances.proposed e s' Hlinked)
    as (_ & _ & _ & _ & _ & _ & Hcancel & _).
  destruct (Hcancel _ _ _ _ Hrun) as [-> Herr]. by exists e.
Defined.

(** An instance: a trader's acceptance on [Samples.orphan] raises the
    [KeyError] and leaves the contract ACTIVE. *)
Lemma missing_listing_leaves_half_an_update_witness :
  ∃ s', trader_accept_contract (mk_AcceptContractRequest "contract-1")
          "trader1@test.com" "t2" "t3" Samples.orphan
        = (Raise (KeyError "product-1"), s')
        ∧ status <$> contracts_db s' !! "contract-1"
          = Some ContractStatus.ACTIVE.
Proof.
  destruct (missing_listing_leaves_half_an_update Samples.orphan
              "contract-1" Samples.orphan_contract eq_refl eq_refl)
    as (_ & Haccept & _).
  eexists. split.
  - apply (Haccept "trader1@test.com" Seed.trader1 "t2" "t3");
      [by exists "trader-1" | done..].
  - vm_compute. reflexivity.
Defined.

(** An instance: the farmer's proposal on the seeded platform
    succeeds, so the caller is a farmer and owns the listing. *)
Lemma only_authorised_callers_succeed_witness :
  ∃ user p, logged_in Seed.seeded "farmer1@test.com" user
            ∧ u_type user = UserType.FARMER
            ∧ products_db Seed.seeded !! "product-1" = Some p
            ∧ p_farmer_id p = u_id user.
Proof.
  destruct (only_authorised_callers_succeed Seed.seeded "farmer1@test.com")
    as (_ & Hpropose & _).
  destruct (create_contract_by_farmer (Seed.propose 300%float UnitType.KG)
              "farmer1@test.com" "contract-1" "t1" "t2" Seed.seeded)
    as [[c | e] s'] eqn:Hrun; [|vm_compute in Hrun; discriminate].
  exact (Hpropose _ _ _ _ _ _ Hrun).
Defined.

(** An instance: the soybean listing after [Seed.oversell], with
    [available_qty = -200], [total_qty = 1000] and
    [committed_qty = 1200]. *)
Lemma stock_is_accounted_for_witness :
  ∃ listed,
    account listed
      (available_qty
         (Instances.product_at "product-1" (run Seed.oversell Seed.seeded)))
      no_contract accepted_contract "product-1"
      (contracts_db (run Seed.oversell Seed.seeded))
    ∧ account listed
        (total_qty
           (Instances.product_at "product-1" (run Seed.oversell Seed.seeded)))
        no_contract completed_contract "product-1"
        (contracts_db (run Seed.oversell Seed.seeded))
    ∧ account num_zero
        (committed_qty
           (Instances.product_at "product-1" (run Seed.oversell Seed.seeded)))
        accepted_contract completed_contract "product-1"
        (contracts_db (run Seed.oversell Seed.seeded)).
Proof.
  refine (stock_is_accounted_for (run Seed.oversell Seed.seeded) "product-1"
            (Instances.product_at "product-1" (run Seed.oversell Seed.seeded))
            _ _).
  - apply oversold_reachable.
  - vm_compute. reflexivity.
Defined.

(** An instance: the soybean listing of [Instances.half_cancelled],
    where 0.5 and 0.1 were reserved and 0.5 released, with
    [reserved_qty = 0.09999999999999998]. *)
Lemma reservations_are_accounted_for_witness :
  account num_zero
    (reserved_qty (Instances.product_at "product-1" Instances.half_cancelled))
    proposal settled_proposal "product-1"
    (contracts_db Instances.half_cancelled).
Proof.
  refine (reservations_are_accounted_for Instances.half_cancelled
            "product-1"
            (Instances.product_at "product-1" Instances.half_cancelled) _ _).
  - exists Seed.seeded,
      [ CreateContractByFarmer (Seed.propose 0.5%float UnitType.KG)
          "farmer1@test.com" "contract-1" "t1" "t2";
        CreateContractByFarmer (Seed.propose 0.1%float UnitType.KG)
          "farmer1@test.com" "contract-2" "t3" "t4";
        CancelContract (mk_CancelContractRequest "contract-1")
          "farmer1@test.com" "t5" "t6" ].
    split_and!; [apply seeded_initial | vm_compute; done | reflexivity].
  - vm_compute. reflexivity.
Defined.

(** An instance: the contract the farmer accepted in [Seed.oversell]. *)
Lemma reachable_contracts_are_priced_witness :
  priced (Instances.contract_at "contract-2"
            (run Seed.oversell Seed.seeded)).
Proof.
  refine (reachable_contracts_are_priced (run Seed.oversell Seed.seeded)
            "contract-2" _ _ _).
  - apply oversold_reachable.
  - vm_compute. reflexivity.
Defined.

(** An instance: of the two soybean prices of the latest day the one
    that stands first in [market_prices_db] is quoted; mustard is quoted
    too, and the three types without a price are left out. *)
Lemma get_current_prices_quotes_the_latest_witness :
  get_current_prices Samples.market_prices_db "trader1@test.com" None
    Seed.seeded
  = (Ok [ mk_quote "Soybean" 46.3%float "kg" "2025-01-03" "Agmarknet";
          mk_quote "Mustard" 55.5%float "kg" "2025-01-02" "Agmarknet" ],
     Seed.seeded)
  ∧ ∀ p, p ∈ Samples.market_prices_db → mp_product_type p = "Soybean" →
         String.leb (mp_date p) "2025-01-03" = true.
Proof.
  assert (get_current_prices Samples.market_prices_db "trader1@test.com"
            None Seed.seeded
          = (Ok [ mk_quote "Soybean" 46.3%float "kg" "2025-01-03"
                    "Agmarknet";
                  mk_quote "Mustard" 55.5%float "kg" "2025-01-02"
                    "Agmarknet" ],
             Seed.seeded)) as Hrun by (vm_compute; reflexivity).
  split; [exact Hrun|].
  destruct (get_current_prices_quotes_the_latest _ _ _ _ _ _ Hrun)
    as (_ & Hlatest & _).
  destruct (Hlatest (mk_quote "Soybean" 46.3%float "kg" "2025-01-03"
                       "Agmarknet"))
    as (_ & latest & _ & _ & Hnone_later & _); [apply list_elem_of_here|].
  exact Hnone_later.
Defined.

(** An instance: the two latest of the four soybean prices, the earlier
    first. *)
Lemma get_price_history_is_the_latest_window_witness :
  get_price_history Samples.market_prices_db "trader1@test.com" "Soybean" 2
    Seed.seeded
  = (Ok ("Soybean", [ ("2025-01-03", 47%float); ("2025-01-03", 46.3%float) ]),
     Seed.seeded)
  ∧ StronglySorted (λ a b : string * float, String.leb a.1 b.1 = true)
      [ ("2025-01-03", 47%float); ("2025-01-03", 46.3%float) ].
Proof.
  assert (get_price_history Samples.market_prices_db "trader1@test.com"
            "Soybean" 2 Seed.seeded
          = (Ok ("Soybean",
                 [ ("2025-01-03", 47%float); ("2025-01-03", 46.3%float) ]),
             Seed.seeded)) as Hrun by (vm_compute; reflexivity).
  split; [exact Hrun|].
  destruct (get_price_history_is_the_latest_window _ _ _ _ _ _ _ _ Hrun)
    as (_ & _ & Hsorted & _).
  exact Hsorted.
Defined.

(** An instance: two days of forecasts; soybean has three forecasts,
    mustard one. *)
Lemma get_forecasts_gives_the_next_days_witness :
  ∃ r, get_forecasts Samples.forecasts_db "trader1@test.com" None 2
         Seed.seeded = (Ok r, Seed.seeded)
       ∧ fs_product_type <$> r = ["Soybean"; "Mustard"]
       ∧ (λ series, pr_date <$> fs_predictions series) <$> r
         = [ ["2025-01-04"; "2025-01-05"]; ["2025-01-04"] ]
       ∧ ∀ series, series ∈ r → fs_predictions series ≠ [].
Proof.
  destruct (get_forecasts Samples.forecasts_db "trader1@test.com" None 2
              Seed.seeded) as [[r | e] s'] eqn:Hrun;
    [|vm_compute in Hrun; discriminate].
  destruct (get_forecasts_gives_the_next_days _ _ _ _ _ _ _ Hrun)
    as (-> & _ & Hseries).
  exists r. split_and!.
  - done.
  - vm_compute in Hrun. injection Hrun as <-. reflexivity.
  - vm_compute in Hrun. injection Hrun as <-. reflexivity.
  - intros series Hin. by destruct (Hseries series Hin) as (_ & Hne & _).
Defined.

(** An instance: the contract that was cancelled in
    [Instances.half_cancelled] is the same document after the farmer's
    second proposal has been cancelled too. *)
Lemma closed_contracts_are_frozen_witness :
  contracts_db
    (run [ CancelContract (mk_CancelContractRequest "contract-2")
             "farmer1@test.com" "t7" "t8" ] Instances.half_cancelled)
    !! "contract-1"
  = contracts_db Instances.half_cancelled !! "contract-1".
Proof.
  rewrite (closed_contracts_are_frozen
             [ CancelContract (mk_CancelContractRequest "contract-2")
                 "farmer1@test.com" "t7" "t8" ]
             Instances.half_cancelled "contract-1"
             (Instances.contract_at "contract-1" Instances.half_cancelled)).
  - vm_compute. reflexivity.
  - vm_compute. done.
  - vm_compute. reflexivity.
  - right. left. reflexivity.
Defined.


(** An instance: the soybean listing through the four requests of
    [Seed.oversell]. *)
Lemma stock_is_only_taken_off_witness :
  ∃ p', products_db (run Seed.oversell Seed.seeded) !! "product-1" = Some p'
        ∧ taken_off Seed.soybean p'.
Proof.
  refine (stock_is_only_taken_off Seed.oversell Seed.seeded "product-1"
            Seed.soybean _ _ _).
  - exists Seed.seeded, []. split_and!; [apply seeded_initial | done | done].
  - vm_compute. done.
  - vm_compute. reflexivity.
Defined.

(** Why the accounts are stated with their order: in Python's floats the
    sum of the pending proposals is not what [reserved_qty] holds.  The
    farmer lists 9007199254740994, proposes 9007199254740992 and 1 of
    it and cancels both proposals: every request succeeds, no proposal
    is pending, and [reserved_qty] is -1. *)
Lemma rounding_shows_in_the_counters :
  let calls : list (@api_call float) :=
    [ ListProduct
        (mk_ListProductRequest ProductType.SOYBEAN 9007199254740994%float
           UnitType.KG)
        "farmer1@test.com" "product-2" "t1" "t2";
      CreateContractByFarmer
        (mk_CreateContractByFarmerRequest "product-2" 45%float
           9007199254740992%float UnitType.KG None None)
        "farmer1@test.com" "contract-1" "t3" "t4";
      CreateContractByFarmer
        (mk_CreateContractByFarmerRequest "product-2" 45%float 1%float
           UnitType.KG None None)
        "farmer1@test.com" "contract-2" "t5" "t6";
      CancelContract (mk_CancelContractRequest "contract-1")
        "farmer1@test.com" "t7" "t8";
      CancelContract (mk_CancelContractRequest "contract-2")
        "farmer1@test.com" "t9" "t10" ] in
  reachable (run calls Seed.seeded)
  ∧ status <$> contracts_db (run calls Seed.seeded) !! "contract-1"
    = Some ContractStatus.CANCELLED
  ∧ status <$> contracts_db (run calls Seed.seeded) !! "contract-2"
    = Some ContractStatus.CANCELLED
  ∧ counters "product-2" (run calls Seed.seeded)
    = Some (9007199254740994, 9007199254740994, -1, 0)%float.
Proof.
  intros calls. split_and!.
  - exists Seed.seeded, calls.
    split_and!; [apply seeded_initial | vm_compute; done | done].
  - vm_compute. reflexivity.
  - vm_compute. reflexivity.
  - vm_compute. reflexivity.
Qed.
